(** * IAPythonPrincipiantes: chat session, vector store and loader glue

    A shallow embedding of the course scripts

    - [Clase 20/02 - chatbot.py] and [Clase 20/06 - custom.py]
      (the [Chatbot] class and its read-eval-print loop),
    - [Clase 24/database_manager.py], [Clase 24/rag_chain.py],
      [Clase 24/document_processor.py] and [Clase 23/consulta.py],

    together with the properties of them that the specification states.

    Python values are modelled as follows: an [int] is a [Z] where its
    sign matters ([max_history]) and a [nat] where it counts something
    ([k], [len], [count]); a [str] is a [string] of bytes; a [list] is a
    Rocq [list]; a call that may raise returns an [outcome].  Remote
    services (the completion API, the loaders, the language model, the
    Chroma collection) are arguments of the functions that call them. *)

From Stdlib Require Import String Ascii ZArith Lia Bool Arith QArith List.
From Stdlib Require Import DecimalString.
Import ListNotations.

Close Scope Q_scope.
Local Open Scope nat_scope.
Local Open Scope string_scope.
Local Open Scope list_scope.

Set Implicit Arguments.

(* ================================================================== *)
(** ** Python preliminaries *)
(* ================================================================== *)

Module Py.

(** An exception is represented by the text [str(e)] gives for it. *)
Definition Exception := string.

(** The result of a call: a value, or a raised exception. *)
Inductive outcome (A : Type) : Type :=
| Return (a : A)
| Raises (e : Exception).

Arguments Return {A} a.
Arguments Raises {A} e.

Definition returned {A} (o : outcome A) : bool :=
  match o with Return _ => true | Raises _ => false end.

(** [l[i:]] for a Python list [l] and an integer [i]: a negative [i]
    counts from the end, and both ends are clamped to the list. *)
Definition slice_from {A} (i : Z) (l : list A) : list A :=
  if (i <? 0)%Z
  then skipn (Z.to_nat (Z.max 0 (Z.of_nat (length l) + i))) l
  else skipn (Z.to_nat i) l.

(** [l.pop()]: the list without its last element and that element;
    [IndexError] on an empty list. *)
Definition pop {A} (l : list A) : outcome (list A * A) :=
  match rev l with
  | [] => Raises "pop from empty list"
  | x :: r => Return (rev r, x)
  end.

(** The last [n] elements of a list (the whole list when it is shorter). *)
Definition lastn {A} (n : nat) (l : list A) : list A :=
  skipn (length l - n) l.

(** [s.lower()] on ASCII text: the letters [A]-[Z] become [a]-[z].
    Characters outside ASCII, which Python maps with the Unicode
    tables, are left as they are. *)
Definition lower_ascii (c : ascii) : ascii :=
  let n := nat_of_ascii c in
  if ((65 <=? n) && (n <=? 90))%nat then ascii_of_nat (n + 32) else c.

Fixpoint lower (s : string) : string :=
  match s with
  | EmptyString => EmptyString
  | String c r => String (lower_ascii c) (lower r)
  end.

(** The same letter in the other case ([c.swapcase()] on ASCII). *)
Definition swapcase_ascii (c : ascii) : ascii :=
  let n := nat_of_ascii c in
  if ((65 <=? n) && (n <=? 90))%nat then ascii_of_nat (n + 32)
  else if ((97 <=? n) && (n <=? 122))%nat then ascii_of_nat (n - 32)
  else c.

(** [case_variant v w]: [v] is [w] with some of its letters in the
    other case. *)
Inductive case_variant : string -> string -> Prop :=
| cv_empty : case_variant EmptyString EmptyString
| cv_same c v w : case_variant v w -> case_variant (String c v) (String c w)
| cv_swap c v w :
    case_variant v w -> case_variant (String (swapcase_ascii c) v) (String c w).

(** [s.endswith(suffix)]. *)
Definition endswith (s suffix : string) : bool :=
  let n := String.length s in
  let m := String.length suffix in
  (m <=? n)%nat && String.eqb (substring (n - m) m s) suffix.

(** How the [while True] loop of a script ends: by its [break], or by
    an exception nobody catches. *)
Inductive Ending :=
| Break
| Uncaught (e : Exception).

(** [input()] on an exhausted standard input. *)
Definition EOFError : Exception := "EOF when reading a line".

(** [str(n)] for a natural number. *)
Definition str (n : nat) : string :=
  NilZero.string_of_uint (Nat.to_uint n).

(** [f"{n:,}"]: decimal digits with a comma every three digits. *)
Fixpoint group3 (rev_digits : list ascii) (i : nat) : list ascii :=
  match rev_digits with
  | [] => []
  | d :: r =>
      match r with
      | [] => [d]
      | _ :: _ =>
          if (i =? 2)%nat then d :: ","%char :: group3 r 0
          else d :: group3 r (S i)
      end
  end.

Definition format_thousands (n : nat) : string :=
  string_of_list_ascii (rev (group3 (rev (list_ascii_of_string (str n))) 0)).

(** *** Code that reads and changes an external store

    [M S A] is a computation over a store of type [S] that returns an
    [A] or raises; the store after it is returned in both cases. *)
Definition M (S A : Type) : Type := S -> outcome A * S.

Definition ret {S A} (a : A) : M S A := fun s => (Return a, s).

Definition raise {S A} (e : Exception) : M S A := fun s => (Raises e, s).

Definition bind {S A B} (m : M S A) (f : A -> M S B) : M S B :=
  fun s =>
    match m s with
    | (Return a, s') => f a s'
    | (Raises e, s') => (Raises e, s')
    end.

(** [try: m  except Exception as e: handler(e)]. *)
Definition try_except {S A} (m : M S A) (handler : Exception -> M S A) : M S A :=
  fun s =>
    match m s with
    | (Return a, s') => (Return a, s')
    | (Raises e, s') => handler e s'
    end.

(** A call that does not touch the store. *)
Definition lift {S A} (o : outcome A) : M S A := fun s => (o, s).

End Py.
Import Py.

Notation "x <- m ;; k" := (bind m (fun x => k))
  (at level 61, m at next level, right associativity).

(* ================================================================== *)
(** ** Clase 20/06 - custom.py: the windowed [Chatbot] *)
(* ================================================================== *)

Module Custom.

Inductive Role := system | user | assistant.

(** A message is the dict [{"role": r, "content": c}]. *)
Record Message := { role : Role; content : string }.

Definition msg (r : Role) (c : string) : Message :=
  {| role := r; content := c |}.

(** [openai.chat.completions.create(..., messages=ms)] followed by
    [response.choices[0].message.content]: the reply for the list that
    is sent, or the exception the [try] block catches. *)
Definition Completion := list Message -> outcome string.

Record Chatbot := {
  system_message : Message;
  messages : list Message;
  max_history_tokens : Z
}.

(** [Chatbot.__init__(system_prompt, max_history)]. *)
Definition init (system_prompt : string) (max_history : Z) : Chatbot :=
  let sm := msg system system_prompt in
  {| system_message := sm;
     messages := [sm];
     max_history_tokens := max_history * 2 |}.

Definition set_messages (self : Chatbot) (ms : list Message) : Chatbot :=
  {| system_message := system_message self;
     messages := ms;
     max_history_tokens := max_history_tokens self |}.

(** Lines 29-32: the sliding window applied to the list that already
    holds the new user message. *)
Definition window (self : Chatbot) (ms : list Message) : list Message :=
  if (Z.of_nat (length ms) >? max_history_tokens self + 1)%Z
  then [system_message self] ++ slice_from (- max_history_tokens self) ms
  else ms.

(** The list passed to the completion API by [talk(user_message)]. *)
Definition request (self : Chatbot) (user_message : string) : list Message :=
  window self (messages self ++ [msg user user_message]).

Definition apology : string :=
  "Lo siento, tuve un problema para procesar tu solicitud.".

(** [Chatbot.talk(user_message)] against the backend [create]: the
    value returned (or the exception that escapes) and the chatbot
    afterwards. *)
Definition talk (create : Completion) (self : Chatbot) (user_message : string)
  : outcome string * Chatbot :=
  let ms := request self user_message in
  match create ms with
  | Return assistant_response =>
      (Return assistant_response,
       set_messages self (ms ++ [msg assistant assistant_response]))
  | Raises _ =>
      match pop ms with
      | Return (ms', _) => (Return apology, set_messages self ms')
      | Raises e => (Raises e, set_messages self ms)
      end
  end.

(** A conversation: each turn is the text typed and the behaviour of
    the backend during that call. *)
Definition Turn := (string * Completion)%type.

Definition talk_turn (self : Chatbot) (t : Turn) : Chatbot :=
  snd (talk (snd t) self (fst t)).

Definition talks (self : Chatbot) (ts : list Turn) : Chatbot :=
  fold_left talk_turn ts self.

(** A turn whose backend call answers [reply]. *)
Definition answered (user_message reply : string) : Turn :=
  (user_message, fun _ => Return reply).

(** A turn whose backend call raises [e]. *)
Definition failed (user_message : string) (e : Exception) : Turn :=
  (user_message, fun _ => Raises e).

(** The unbounded transcript of a list of (question, reply) pairs. *)
Definition transcript (qa : list (string * string)) : list Message :=
  flat_map (fun p => [msg user (fst p); msg assistant (snd p)]) qa.

Definition exchanges (qa : list (string * string)) : list Turn :=
  map (fun p => answered (fst p) (snd p)) qa.

(** [succeeded self ts qa]: in the conversation [ts] started from [self]
    every call of the backend returned, and [qa] lists the questions with
    the replies received. *)
Inductive succeeded : Chatbot -> list Turn -> list (string * string) -> Prop :=
| succeeded_nil self : succeeded self [] []
| succeeded_cons self t ts reply qa :
    snd t (request self (fst t)) = Return reply ->
    succeeded (talk_turn self t) ts qa ->
    succeeded self (t :: ts) ((fst t, reply) :: qa).

(** The invariant of the session: the window size is not negative and
    the list starts with the system message. *)
Definition pinned (self : Chatbot) : Prop :=
  (0 <= max_history_tokens self)%Z /\
  exists rest, messages self = system_message self :: rest.

End Custom.


(** *** The [__main__] loop of [06 - custom.py]

  [stdin] holds the lines [input] will read, [create n] is the
  behaviour of the completion API during the [n]-th call of [talk].
  The result is how the loop ended, the chatbot at that point and the
  lines written by [print]. *)

Module CustomMain.
Import Custom.

Fixpoint loop (create : nat -> Completion) (n : nat) (mi_chatbot : Chatbot)
         (stdin : list string) : Ending * Chatbot * list string :=
  match stdin with
  | [] => (Uncaught EOFError, mi_chatbot, [])
  | entrada :: rest =>
      if String.eqb (lower entrada) "salir" then (Break, mi_chatbot, [])
      else
        match talk (create n) mi_chatbot entrada with
        | (Return respuesta, bot) =>
            let '(e, b, out) := loop create (S n) bot rest in
            (e, b, ("Historiador: " ++ respuesta)%string :: out)
        | (Raises e, bot) => (Uncaught e, bot, [])
        end
  end.

Definition main (create : nat -> Completion) (stdin : list string) :=
  loop create 0
    (init "Eres un historiador que solo puede hablar de eventos del siglo XX." 3)
    stdin.

(** The lines read before the first one that is the exit command. *)
Fixpoint before_salir (stdin : list string) : list string :=
  match stdin with
  | [] => []
  | entrada :: rest =>
      if String.eqb (lower entrada) "salir" then []
      else entrada :: before_salir rest
  end.

Definition has_salir (stdin : list string) : bool :=
  existsb (fun entrada => String.eqb (lower entrada) "salir") stdin.

End CustomMain.

(* ================================================================== *)
(** ** Clase 20/02 - chatbot.py: the plain [Chatbot] and its loop *)
(* ================================================================== *)

Module Basic.
Import Custom.

(** The object holds the message list only. *)
Definition Chatbot := list Message.

Definition init (system_prompt : string) : Chatbot :=
  [msg system system_prompt].

(** [talk] has no [try]: an exception of the backend escapes, after
    the user message was appended. *)
Definition talk (create : Completion) (self : Chatbot) (user_message : string)
  : outcome string * Chatbot :=
  let ms := self ++ [msg user user_message] in
  match create ms with
  | Return assistant_response =>
      (Return assistant_response, ms ++ [msg assistant assistant_response])
  | Raises e => (Raises e, ms)
  end.

Fixpoint loop (create : nat -> Completion) (n : nat) (mi_chatbot : Chatbot)
         (stdin : list string) : Ending * Chatbot * list string :=
  match stdin with
  | [] => (Uncaught EOFError, mi_chatbot, [])
  | entrada :: rest =>
      if String.eqb (lower entrada) "salir" then (Break, mi_chatbot, [])
      else
        match talk (create n) mi_chatbot entrada with
        | (Return respuesta, bot) =>
            let '(e, b, out) := loop create (S n) bot rest in
            (e, b, ("Asistente: " ++ respuesta)%string :: out)
        | (Raises e, bot) => (Uncaught e, bot, [])
        end
  end.

Definition main (create : nat -> Completion) (stdin : list string) :=
  loop create 0 (init "Eres un asistente servicial y amigable.") stdin.

(** A conversation with the plain chatbot, exceptions dropped. *)
Definition talks (self : Chatbot) (ts : list Turn) : Chatbot :=
  fold_left (fun bot t => snd (talk (snd t) bot (fst t))) ts self.

End Basic.

(* ================================================================== *)
(** ** Clase 24/document_processor.py *)
(* ================================================================== *)

Module DocumentProcessor.

(** A LangChain document: its text and its metadata. *)
Record Document := {
  page_content : string;
  metadata : list (string * string)
}.

(** The two loaders of LangChain: what constructing the loader for a
    path and calling [load()] gives. *)
Record Loaders := {
  PyPDFLoader : string -> outcome (list Document);
  TextLoader : string -> outcome (list Document)
}.

Definition unsupported (file_path : string) : Exception :=
  ("Tipo de archivo no soportado: " ++ file_path ++ "
Solo se aceptan archivos .txt y .pdf")%string.

(** [load_file(file_path)]: the [except] clause prints and re-raises. *)
Definition load_file (fs : Loaders) (file_path : string)
  : outcome (list Document) :=
  if endswith file_path ".pdf" then PyPDFLoader fs file_path
  else if endswith file_path ".txt" then TextLoader fs file_path
  else Raises (unsupported file_path).

(** The [for] loop of [load_multiple_files], with the two accumulators. *)
Fixpoint load_loop (fs : Loaders) (file_paths : list string)
         (all_documents : list Document) (failed_files : list string)
  : list Document * list string :=
  match file_paths with
  | [] => (all_documents, failed_files)
  | file_path :: rest =>
      match load_file fs file_path with
      | Return documents =>
          load_loop fs rest (all_documents ++ documents) failed_files
      | Raises _ =>
          load_loop fs rest all_documents (failed_files ++ [file_path])
      end
  end.

(** [load_multiple_files(file_paths)]. *)
Definition load_multiple_files (fs : Loaders) (file_paths : list string)
  : outcome (list Document * list string) :=
  Return (load_loop fs file_paths [] []).

(** [split_documents(documents)]; [text_splitter] stands for
    [RecursiveCharacterTextSplitter(chunk_size, chunk_overlap).split_documents],
    which belongs to LangChain. *)
Definition split_documents
           (text_splitter : list Document -> outcome (list Document))
           (documents : list Document) : outcome (list Document) :=
  match documents with
  | [] => Return []
  | _ :: _ => text_splitter documents
  end.

(** The files of [file_paths] that load, and those that do not. *)
Definition loads (fs : Loaders) (file_path : string) : bool :=
  returned (load_file fs file_path).

Definition documents_of (fs : Loaders) (file_path : string) : list Document :=
  match load_file fs file_path with
  | Return documents => documents
  | Raises _ => []
  end.

(** The dictionary [process_files] returns. *)
Module Processed.
Record t := {
  success : bool;
  splits : list Document;
  document_count : nat;
  split_count : nat;
  failed_files : list string;
  message : string
}.
End Processed.

(** [process_files(file_paths)]: nothing here is inside a [try]. *)
Definition process_files (fs : Loaders)
           (text_splitter : list Document -> outcome (list Document))
           (file_paths : list string) : outcome Processed.t :=
  match file_paths with
  | [] =>
      Return {| Processed.success := false;
                Processed.splits := [];
                Processed.document_count := 0;
                Processed.split_count := 0;
                Processed.failed_files := [];
                Processed.message :=
                  "⚠️ No se proporcionaron archivos para procesar" |}
  | _ :: _ =>
      match load_multiple_files fs file_paths with
      | Raises e => Raises e
      | Return (documents, failed_files) =>
          match documents with
          | [] =>
              Return {| Processed.success := false;
                        Processed.splits := [];
                        Processed.document_count := 0;
                        Processed.split_count := 0;
                        Processed.failed_files := failed_files;
                        Processed.message :=
                          "❌ No se pudieron cargar documentos válidos" |}
          | _ :: _ =>
              match split_documents text_splitter documents with
              | Raises e => Raises e
              | Return [] =>
                  Return {| Processed.success := false;
                            Processed.splits := [];
                            Processed.document_count := length documents;
                            Processed.split_count := 0;
                            Processed.failed_files := failed_files;
                            Processed.message :=
                              "❌ Los documentos están vacíos o no se pudieron dividir" |}
              | Return ((_ :: _) as splits) =>
                  Return {| Processed.success := true;
                            Processed.splits := splits;
                            Processed.document_count := length documents;
                            Processed.split_count := length splits;
                            Processed.failed_files := failed_files;
                            Processed.message :=
                              ("✅ Procesados " ++ str (length splits)
                                 ++ " fragmentos de " ++ str (length documents)
                                 ++ " documento(s)")%string |}
              end
          end
      end
  end.

(** [".pdf"] or [".txt"] at the end of the path. *)
Definition supported (file_path : string) : bool :=
  endswith file_path ".pdf" || endswith file_path ".txt".

End DocumentProcessor.

(* ================================================================== *)
(** ** The Chroma vector store used by Clase 23 and Clase 24 *)
(* ================================================================== *)

Module Chroma.
Import DocumentProcessor.

(** The calls the scripts make on [vectordb] and on its
    [_collection], over a store of type [S].  The identifiers of the
    records are numbers here. *)
Class Collection (S : Type) := {
  count : M S nat;                                   (* collection.count() *)
  get_ids : M S (list nat);                          (* collection.get()['ids'] *)
  delete : list nat -> M S unit;                     (* collection.delete(ids=...) *)
  add_documents : list Document -> M S (list nat);   (* vectordb.add_documents(...) *)
  similarity_search : string -> nat -> M S (list Document)
                                                     (* vectordb.similarity_search(q, k=...) *)
}.

End Chroma.

(* ================================================================== *)
(** ** Clase 24/database_manager.py *)
(* ================================================================== *)

Module DatabaseManager.
Import DocumentProcessor.

Module Stats.
Record t := { count : nat; status : string; message : string }.
End Stats.

Module Cleared.
Record t := { success : bool; deleted_count : nat; message : string }.
End Cleared.

Section Methods.
Context {S : Type} {vectordb : Chroma.Collection S}.

(** [add_documents(documents)]: the [except] clause prints and re-raises. *)
Definition add_documents (documents : list Document) : M S nat :=
  try_except
    (_ <- Chroma.add_documents documents ;;
     ret (length documents))
    (fun e => raise e).

(** [get_retriever(k)]: the retriever, as the function its [invoke] is. *)
Definition get_retriever (k : nat) : string -> M S (list Document) :=
  fun question => Chroma.similarity_search question k.

Definition get_stats : M S Stats.t :=
  try_except
    (count <- Chroma.count ;;
     if (count =? 0)%nat then
       ret {| Stats.count := count;
              Stats.status := "empty";
              Stats.message :=
                "📊 **Estado:** Base de conocimiento vacía (0 fragmentos)" |}
     else
       ret {| Stats.count := count;
              Stats.status := "active";
              Stats.message :=
                ("📊 **Estado:** Base de conocimiento activa

✅ **Total de fragmentos:** " ++ format_thousands count ++ "

💡 Puedes hacer preguntas sobre el contenido cargado.")%string |})
    (fun e =>
       ret {| Stats.count := 0;
              Stats.status := "error";
              Stats.message :=
                ("⚠️ Error al obtener estadísticas: " ++ e)%string |}).

Definition clear_all_documents : M S Cleared.t :=
  try_except
    (count <- Chroma.count ;;
     if (count =? 0)%nat then
       ret {| Cleared.success := true;
              Cleared.deleted_count := 0;
              Cleared.message := "La base de datos ya estaba vacía." |}
     else
       all_ids <- Chroma.get_ids ;;
       _ <- match all_ids with
            | [] => ret tt
            | _ :: _ => Chroma.delete all_ids
            end ;;
       ret {| Cleared.success := true;
              Cleared.deleted_count := count;
              Cleared.message :=
                ("✅ Base de datos limpiada exitosamente. Se eliminaron "
                   ++ str count ++ " fragmentos.")%string |})
    (fun e =>
       ret {| Cleared.success := false;
              Cleared.deleted_count := 0;
              Cleared.message :=
                ("❌ Error al limpiar la base de datos: " ++ e)%string |}).

End Methods.
End DatabaseManager.

(* ================================================================== *)
(** ** Clase 24/rag_chain.py *)
(* ================================================================== *)

Module RAGChain.
Import DocumentProcessor.

(** The text of [RAG_PROMPT_TEMPLATE] (config.py) around its two
    placeholders. *)
Definition template_before_context : string := "
Eres un asistente de IA experto y amigable. Tu tarea es responder la pregunta 
del usuario basándote ÚNICAMENTE en el siguiente contexto proporcionado.

INSTRUCCIONES IMPORTANTES:
- Si la información está en el contexto, responde de forma clara y completa
- Si la información NO está en el contexto, indica amablemente que no tienes esa información
- NO inventes información que no esté en el contexto
- Puedes formatear tu respuesta de forma clara usando puntos o listas si es apropiado

CONTEXTO:
".

Definition template_before_question : string := "

PREGUNTA DEL USUARIO:
".

Definition template_after_question : string := "

RESPUESTA:
".

(** The dictionary [query_with_sources] returns. *)
Module Sourced.
Record t := { answer : string; sources : list Document; source_count : nat }.
End Sourced.

Section Chain.
Context {S : Type} {vectordb : Chroma.Collection S}.

(** [llm] is [ChatGoogleGenerativeAI.invoke] followed by
    [StrOutputParser]; [repr] is the text Python puts for the list of
    retrieved documents in place of [{context}]. *)
Variable llm : string -> outcome string.
Variable repr : list Document -> string.

Definition prompt (context : list Document) (question : string) : string :=
  (template_before_context ++ repr context ++ template_before_question
     ++ question ++ template_after_question)%string.

(** [create_chain(k)], as the function [rag_chain.invoke] is. *)
Definition create_chain (k : nat) : string -> M S string :=
  fun question =>
    context <- DatabaseManager.get_retriever k question ;;
    lift (llm (prompt context question)).

Definition sorry (e : Exception) : string :=
  ("Lo siento, ocurrió un error al procesar tu pregunta: " ++ e)%string.

(** [query(question, k)]. *)
Definition query (question : string) (k : nat) : M S string :=
  try_except
    (response <- create_chain k question ;;
     ret response)
    (fun e => ret (sorry e)).

(** [query_with_sources(question, k)]: the retriever is asked once for
    the sources and once more inside [query]. *)
Definition query_with_sources (question : string) (k : nat) : M S Sourced.t :=
  try_except
    (source_docs <- DatabaseManager.get_retriever k question ;;
     response <- query question k ;;
     ret {| Sourced.answer := response;
            Sourced.sources := source_docs;
            Sourced.source_count := length source_docs |})
    (fun e =>
       ret {| Sourced.answer := ("Error al procesar la pregunta: " ++ e)%string;
              Sourced.sources := [];
              Sourced.source_count := 0 |}).

End Chain.
End RAGChain.

(* ================================================================== *)
(** ** Clase 23/consulta.py *)
(* ================================================================== *)

Module Consulta.
Import DocumentProcessor.

(** [doc.metadata.get(key, 'N/A')]. *)
Fixpoint get (md : list (string * string)) (key : string) : string :=
  match md with
  | [] => "N/A"
  | (k, v) :: rest => if String.eqb k key then v else get rest key
  end.

(** The lines printed for the results, from index [i]. *)
Fixpoint show (i : nat) (results : list Document) : list string :=
  match results with
  | [] => []
  | doc :: rest =>
      [("Resultado " ++ str (i + 1) ++ ":")%string;
       ("Fuente: " ++ get (metadata doc) "source")%string;
       ("Página: " ++ get (metadata doc) "page")%string;
       "Contenido:";
       page_content doc;
       "------------------------------"]
      ++ show (S i) rest
  end.

Definition no_results : string := "No se encontraron resultados relevantes.".

Section Main.
Context {S : Type} {vectordb : Chroma.Collection S}.

(** [main(query_text)]: the lines it prints. *)
Definition main (query_text : string) : M S (list string) :=
  if String.eqb query_text "" then
    ret ["Por favor, proporciona un texto para la consulta."]
  else
    let banner :=
      ["Cargando modelo de embeddings y base de datos...";
       ("Realizando búsqueda MMR para: '" ++ query_text ++ "'
")%string] in
    results <- Chroma.similarity_search query_text 3 ;;
    match results with
    | [] => ret (banner ++ [no_results])
    | _ :: _ =>
        ret (banner
               ++ ["Resultados encontrados:
=============================="]
               ++ show 0 results)
    end.

End Main.
End Consulta.

(* ================================================================== *)
(** ** The vector store of the specification *)
(* ================================================================== *)

Module SpecStore.
Import DocumentProcessor.

(** Modelled from the spec: the Chroma collection behind [vectordb] is a
    third-party service and no file of the repository defines it.  Section
    4.4 of the specification gives its contract: records are written by
    [add] with a stable identifier, unique within the store, and deleted
    in bulk; [stats] is the number of records; [query(text, k)] returns
    the [k] records at the smallest distance from [text], ties broken by
    insertion order, fewer when the store holds fewer, none when it is
    empty.  No operation of this store raises. *)
Record Store := {
  records : list (nat * Document);   (* in insertion order *)
  next_id : nat                      (* the next unused identifier *)
}.

Definition empty : Store := {| records := []; next_id := 0 |}.

Section Distance.

(** The distance between the embedding of the query text and the
    embedding of a fragment's text. *)
Variable distance : string -> string -> Q.

(** Insertion of [r] behind the records that are strictly closer. *)
Fixpoint insert_by (key : nat * Document -> Q) (r : nat * Document)
         (l : list (nat * Document)) : list (nat * Document) :=
  match l with
  | [] => [r]
  | r' :: rest =>
      if Qle_bool (key r) (key r') then r :: l
      else r' :: insert_by key r rest
  end.

(** A stable sort by increasing key. *)
Definition sort_by (key : nat * Document -> Q)
           (l : list (nat * Document)) : list (nat * Document) :=
  fold_right (insert_by key) [] l.

Definition ranked (text : string) (s : Store) : list (nat * Document) :=
  sort_by (fun r => distance text (page_content (snd r))) (records s).

Definition store_add (documents : list Document) : M Store (list nat) :=
  fun s =>
    let ids := seq (next_id s) (length documents) in
    (Return ids,
     {| records := records s ++ combine ids documents;
        next_id := next_id s + length documents |}).

Definition store_delete (ids : list nat) : M Store unit :=
  fun s =>
    (Return tt,
     {| records :=
          filter (fun r => negb (existsb (Nat.eqb (fst r)) ids)) (records s);
        next_id := next_id s |}).

#[local] Instance collection : Chroma.Collection Store := {
  Chroma.count := fun s => (Return (length (records s)), s);
  Chroma.get_ids := fun s => (Return (map fst (records s)), s);
  Chroma.delete := store_delete;
  Chroma.add_documents := store_add;
  Chroma.similarity_search :=
    fun text k s => (Return (map snd (firstn k (ranked text s))), s)
}.

End Distance.
End SpecStore.

(** A collection whose backend is out of reach: every call raises. *)
Module Unreachable.

Definition refused : Exception := "Connection refused".

#[local] Instance collection : Chroma.Collection unit := {
  Chroma.count := raise refused;
  Chroma.get_ids := raise refused;
  Chroma.delete := fun _ => raise refused;
  Chroma.add_documents := fun _ => raise refused;
  Chroma.similarity_search := fun _ _ => raise refused
}.

End Unreachable.

(* ================================================================== *)
(** ** Clase 24/app.py: the application before it was split in modules *)
(* ================================================================== *)

Module App.
Import DocumentProcessor.

(** The text of this file's [RAG_PROMPT_TEMPLATE] around its two
    placeholders. *)
Definition template_before_context : string := "
Eres un asistente de IA experto. Tu tarea es responder la pregunta del usuario basándote únicamente en el siguiente contexto.
Si la información no está en el contexto, di amablemente que no tienes esa información.

Contexto:
".

Definition template_before_question : string := "

Pregunta:
".

Definition template_after_question : string := "

Respuesta:
".

(** Lines 88-99 of [add_to_knowledge_base]: a file with another
    extension is skipped by [continue]; [loader.load()] is not inside a
    [try]. *)
Fixpoint load_all (fs : Loaders) (file_list : list string)
         (documents : list Document) : outcome (list Document) :=
  match file_list with
  | [] => Return documents
  | file_path :: rest =>
      if endswith file_path ".pdf" then
        match PyPDFLoader fs file_path with
        | Return loaded => load_all fs rest (documents ++ loaded)
        | Raises e => Raises e
        end
      else if endswith file_path ".txt" then
        match TextLoader fs file_path with
        | Return loaded => load_all fs rest (documents ++ loaded)
        | Raises e => Raises e
        end
      else load_all fs rest documents
  end.

Section Functions.
Context {S : Type} {vectordb : Chroma.Collection S}.

Definition get_knowledge_base_stats : M S string :=
  try_except
    (count <- Chroma.count ;;
     if (count =? 0)%nat then
       ret " **Estado:** Base de conocimiento vacía (0 fragmentos)"
     else
       ret (" **Estado:** Base de conocimiento activa

 **Total de fragmentos:** " ++ format_thousands count ++ "

 Puedes hacer preguntas sobre el contenido cargado.")%string)
    (fun e => ret (" Error al obtener estadísticas: " ++ e)%string).

(** [add_to_knowledge_base(file_list)]; the elements of [file_list] are
    given by their [name], and [text_splitter] is
    [RecursiveCharacterTextSplitter(1500, 250).split_documents]. *)
Definition add_to_knowledge_base (fs : Loaders)
           (text_splitter : list Document -> outcome (list Document))
           (file_list : list string) : M S (string * string) :=
  match file_list with
  | [] =>
      stats <- get_knowledge_base_stats ;;
      ret ("Por favor, selecciona al menos un archivo.", stats)
  | _ :: _ =>
      documents <- lift (load_all fs file_list []) ;;
      match documents with
      | [] =>
          stats <- get_knowledge_base_stats ;;
          ret ("No se pudieron cargar documentos válidos (solo .txt y .pdf).",
               stats)
      | _ :: _ =>
          splits <- lift (text_splitter documents) ;;
          match splits with
          | [] =>
              stats <- get_knowledge_base_stats ;;
              ret ("Los documentos están vacíos o no se pudieron dividir.",
                   stats)
          | _ :: _ =>
              _ <- Chroma.add_documents splits ;;
              stats <- get_knowledge_base_stats ;;
              ret (("¡Éxito! Se añadieron " ++ str (length splits)
                      ++ " fragmentos de " ++ str (length file_list)
                      ++ " archivo(s).")%string,
                   stats)
          end
      end
  end.

(** [respond_chat(message, chat_history)]: no [try]. *)
Definition respond_chat (llm : string -> outcome string)
           (repr : list Document -> string)
           (message : string) (chat_history : list (string * string))
  : M S (string * list (string * string)) :=
  context <- Chroma.similarity_search message 5 ;;
  response <-
    lift (llm (template_before_context ++ repr context
                 ++ template_before_question ++ message
                 ++ template_after_question)%string) ;;
  ret ("", chat_history ++ [(message, response)]).

Definition clear_knowledge_base : M S (string * string) :=
  try_except
    (count <- Chroma.count ;;
     if (count =? 0)%nat then
       stats <- get_knowledge_base_stats ;;
       ret ("La base de datos ya estaba vacía.", stats)
     else
       all_ids <- Chroma.get_ids ;;
       _ <- match all_ids with
            | [] => ret tt
            | _ :: _ => Chroma.delete all_ids
            end ;;
       stats <- get_knowledge_base_stats ;;
       ret (("✅ Base de datos limpiada exitosamente. Se eliminaron "
               ++ str count ++ " fragmentos.")%string,
            stats))
    (fun e =>
       stats <- get_knowledge_base_stats ;;
       ret (("❌ Error al limpiar la base de datos: " ++ e ++ "

Si el problema persiste, reinicia la aplicación.")%string,
            stats)).

End Functions.
End App.

(* ================================================================== *)
(** ** Clase 24/app_refactorizado.py: the handlers of the interface *)
(* ================================================================== *)

Module AppRefactorizado.
Import DocumentProcessor.

(** [TOP_K_DOCUMENTS] of config.py, the default [k] of [query]. *)
Definition TOP_K_DOCUMENTS : nat := 5.

Definition error_response (e : Exception) : string :=
  ("😔 Lo siento, ocurrió un error al procesar tu pregunta.

Error: " ++ e ++ "

Por favor, intenta de nuevo o contacta al administrador.")%string.

Section Handlers.
Context {S : Type} {vectordb : Chroma.Collection S}.

(** [handle_file_upload(file_list)]; the elements of [file_list] are
    given by their [name]. *)
Definition handle_file_upload (fs : Loaders)
           (text_splitter : list Document -> outcome (list Document))
           (file_list : list string) : M S (string * string) :=
  match file_list with
  | [] =>
      stats <- DatabaseManager.get_stats ;;
      ret ("⚠️ Por favor, selecciona al menos un archivo.",
           DatabaseManager.Stats.message stats)
  | _ :: _ =>
      try_except
        (let file_paths := file_list in
         result <- lift (process_files fs text_splitter file_paths) ;;
         if negb (Processed.success result) then
           stats <- DatabaseManager.get_stats ;;
           ret (Processed.message result, DatabaseManager.Stats.message stats)
         else
           _ <- DatabaseManager.add_documents (Processed.splits result) ;;
           stats <- DatabaseManager.get_stats ;;
           let success_message :=
             ("✅ ¡Éxito!

📄 Archivos procesados: " ++ str (length file_paths) ++ "
📊 Fragmentos creados: " ++ str (Processed.split_count result) ++ "
💾 Total en base de datos: "
                ++ format_thousands (DatabaseManager.Stats.count stats))%string in
           let success_message :=
             match Processed.failed_files result with
             | [] => success_message
             | _ :: _ =>
                 (success_message ++ "

⚠️ Archivos con error: "
                    ++ str (length (Processed.failed_files result)))%string
             end in
           ret (success_message, DatabaseManager.Stats.message stats))
        (fun e =>
           stats <- DatabaseManager.get_stats ;;
           ret (("❌ Error al procesar archivos: " ++ e)%string,
                DatabaseManager.Stats.message stats))
  end.

(** [handle_chat_message(message, chat_history)]; [strip] is Python's
    [str.strip], [llm] and [repr] are those of the RAG chain. *)
Definition handle_chat_message (strip : string -> string)
           (llm : string -> outcome string) (repr : list Document -> string)
           (message : string) (chat_history : list (string * string))
  : M S (string * list (string * string)) :=
  if String.eqb message "" || String.eqb (strip message) "" then
    ret ("", chat_history)
  else
    try_except
      (response <- RAGChain.query llm repr message TOP_K_DOCUMENTS ;;
       ret ("", chat_history ++ [(message, response)]))
      (fun e => ret ("", chat_history ++ [(message, error_response e)])).

Definition handle_clear_database : M S (string * string) :=
  try_except
    (result <- DatabaseManager.clear_all_documents ;;
     stats <- DatabaseManager.get_stats ;;
     ret (DatabaseManager.Cleared.message result,
          DatabaseManager.Stats.message stats))
    (fun e =>
       stats <- DatabaseManager.get_stats ;;
       ret (("❌ Error al limpiar la base de datos: " ++ e)%string,
            DatabaseManager.Stats.message stats)).

Definition handle_refresh_stats : M S string :=
  stats <- DatabaseManager.get_stats ;;
  ret (DatabaseManager.Stats.message stats).

End Handlers.
End AppRefactorizado.

(* ================================================================== *)
(** * Properties *)
(* ================================================================== *)

(** ** Lists, slices and strings *)

Module PyFacts.

Section Lists.
Context {A : Type}.
Implicit Types (l : list A) (x : A) (n m : nat).

Lemma pop_snoc l x : pop (l ++ [x]) = Return (l, x).
Proof.
  unfold pop. rewrite rev_app_distr. simpl. now rewrite rev_involutive.
Qed.

Lemma pop_two x y l : exists l' z, pop (x :: y :: l) = Return (x :: l', z).
Proof.
  destruct (@exists_last _ (y :: l)) as (l' & z & E); [discriminate|].
  exists l', z. rewrite E. apply (pop_snoc (x :: l') z).
Qed.

Lemma lastn_all n l : length l <= n -> lastn n l = l.
Proof.
  intros H. unfold lastn. now replace (length l - n) with 0 by lia.
Qed.

Lemma lastn_snoc n l x : lastn (S n) (l ++ [x]) = lastn n l ++ [x].
Proof.
  unfold lastn. rewrite length_app, skipn_app. simpl length.
  replace (length l + 1 - S n) with (length l - n) by lia.
  now replace (length l - n - length l) with 0 by lia.
Qed.

Lemma lastn_lastn n m l : n <= m -> lastn n (lastn m l) = lastn n l.
Proof.
  intros H. unfold lastn. rewrite skipn_skipn, length_skipn.
  f_equal. lia.
Qed.

Lemma length_lastn n l : length (lastn n l) = Nat.min n (length l).
Proof.
  unfold lastn. rewrite length_skipn. lia.
Qed.

Lemma lastn_cons n x l : n <= length l -> lastn n (x :: l) = lastn n l.
Proof.
  intros H. unfold lastn. simpl length.
  now replace (S (length l) - n) with (S (length l - n)) by lia.
Qed.

(** [l[-z:]] with [z] positive is the last [z] elements. *)
Lemma slice_from_neg (z : Z) l :
  (0 < z)%Z -> slice_from (- z) l = lastn (Z.to_nat z) l.
Proof.
  intros H. unfold slice_from, lastn.
  destruct (Z.ltb_spec (- z) 0); [|lia]. f_equal. lia.
Qed.

(** [l[-0:]] is [l[0:]], the whole list. *)
Lemma slice_from_zero l : slice_from (- 0) l = l.
Proof. reflexivity. Qed.

Lemma slice_from_nonempty (z : Z) l :
  (0 <= z)%Z -> l <> [] -> slice_from (- z) l <> [].
Proof.
  intros Hz Hl. destruct (Z.eq_dec z 0) as [->|Hne].
  - now rewrite slice_from_zero.
  - rewrite slice_from_neg by lia. intros E.
    apply (f_equal (@length A)) in E. rewrite length_lastn in E.
    destruct l; [congruence|]. simpl in E. lia.
Qed.

End Lists.

Lemma lower_swapcase c : lower_ascii (swapcase_ascii c) = lower_ascii c.
Proof.
  destruct c as [[] [] [] [] [] [] [] []]; reflexivity.
Qed.

Lemma lower_case_variant v w : case_variant v w -> lower v = lower w.
Proof.
  induction 1; simpl; [reflexivity| |rewrite lower_swapcase]; now f_equal.
Qed.

End PyFacts.

(** ** The chat session of [06 - custom.py] *)

Module ChatSession.
Import Custom PyFacts.

Lemma set_messages_same self : set_messages self (messages self) = self.
Proof. now destruct self. Qed.

(** Below the window size nothing is cut. *)
Lemma request_short self m :
  (Z.of_nat (length (messages self)) <= max_history_tokens self)%Z ->
  request self m = messages self ++ [msg user m].
Proof.
  intros H. unfold request, window. rewrite length_app. simpl length.
  destruct (Z.gtb_spec (Z.of_nat (length (messages self) + 1))
              (max_history_tokens self + 1)); [lia|reflexivity].
Qed.

(** From the window size on, the request is the system message and the
    last [max_history_tokens] messages. *)
Lemma request_long self m :
  (0 < max_history_tokens self)%Z ->
  (max_history_tokens self < Z.of_nat (length (messages self)))%Z ->
  request self m =
  system_message self
    :: lastn (Z.to_nat (max_history_tokens self)) (messages self ++ [msg user m]).
Proof.
  intros H0 H. unfold request, window. rewrite length_app. simpl length.
  destruct (Z.gtb_spec (Z.of_nat (length (messages self) + 1))
              (max_history_tokens self + 1)); [|lia].
  now rewrite slice_from_neg.
Qed.

Lemma request_shape self m :
  pinned self -> exists y l, request self m = system_message self :: y :: l.
Proof.
  intros (H0 & rest & E). unfold request, window.
  destruct (_ >? _)%Z.
  - destruct (slice_from (- max_history_tokens self)
                (messages self ++ [msg user m])) as [|y l] eqn:Es.
    + exfalso. revert Es. apply slice_from_nonempty; [assumption|].
      now destruct (messages self).
    + now exists y, l.
  - rewrite E. destruct rest as [|y l]; simpl; eauto.
Qed.

(** Whatever the backend does, [talk] returns a string. *)
Lemma talk_returns create self m :
  exists r, fst (talk create self m) = Return r.
Proof.
  unfold talk. cbv zeta. destruct (create _); [simpl; eauto|].
  assert (N : request self m <> []).
  { unfold request, window. destruct (_ >? _)%Z; [discriminate|].
    now destruct (messages self). }
  destruct (@exists_last _ _ N) as (l & x & ->).
  rewrite pop_snoc. simpl. eauto.
Qed.

(** A failed call leaves the request without its last message. *)
Lemma talk_failure create self m e :
  create (request self m) = Raises e ->
  talk create self m
  = (Return apology, set_messages self (removelast (request self m))).
Proof.
  intros E. unfold talk. cbv zeta. rewrite E.
  assert (N : request self m <> []).
  { unfold request, window. destruct (_ >? _)%Z; [discriminate|].
    now destruct (messages self). }
  destruct (@exists_last _ _ N) as (l & x & ->).
  now rewrite pop_snoc, removelast_last.
Qed.

Lemma talk_pinned create self m :
  pinned self -> pinned (snd (talk create self m)).
Proof.
  intros P. destruct (request_shape m P) as (y & l & E).
  destruct P as (H0 & _). unfold talk. cbv zeta. rewrite E.
  destruct (create _).
  - split; [assumption|]. simpl. eauto.
  - destruct (pop_two (system_message self) y l) as (l' & z & ->).
    split; [assumption|]. simpl. eauto.
Qed.

Lemma talk_system_message create self m :
  system_message (snd (talk create self m)) = system_message self.
Proof.
  unfold talk. cbv zeta. destruct (create _); [reflexivity|].
  now destruct (pop _) as [[? ?]|].
Qed.

Lemma talks_pinned ts : forall self,
  pinned self ->
  pinned (talks self ts) /\
  system_message (talks self ts) = system_message self.
Proof.
  induction ts as [|t ts IH]; intros self P; [now split|].
  simpl. destruct (IH (talk_turn self t)) as (P' & E).
  - now apply talk_pinned.
  - split; [assumption|]. rewrite E. apply talk_system_message.
Qed.

Lemma init_pinned system_prompt max_history :
  (0 <= max_history)%Z -> pinned (init system_prompt max_history).
Proof.
  intros H. split; simpl; [lia|eauto].
Qed.

Lemma succeeded_talks self ts qa :
  succeeded self ts qa -> talks self ts = talks self (exchanges qa).
Proof.
  induction 1 as [|self t ts reply qa E _ IH]; [reflexivity|].
  assert (Et : talk_turn self t = talk_turn self (answered (fst t) reply)).
  { destruct t as [q create]. unfold talk_turn, talk, answered.
    simpl in *. now rewrite E. }
  simpl. now rewrite <- Et, IH.
Qed.

Lemma transcript_snoc qa q a :
  transcript (qa ++ [(q, a)])
  = (transcript qa ++ [msg user q]) ++ [msg assistant a].
Proof.
  unfold transcript. rewrite flat_map_app. simpl.
  now rewrite <- app_assoc.
Qed.

Lemma length_transcript qa : length (transcript qa) = 2 * length qa.
Proof.
  induction qa as [|p qa IH]; simpl; [reflexivity|]. rewrite IH. lia.
Qed.

(** The state after any number of answered questions: the system
    message and the last [2 * max_history + 1] messages of the
    transcript. *)
Lemma exchanges_state system_prompt max_history qa :
  (1 <= max_history)%Z ->
  let bot := talks (init system_prompt max_history) (exchanges qa) in
  system_message bot = msg system system_prompt /\
  max_history_tokens bot = (max_history * 2)%Z /\
  messages bot
  = msg system system_prompt
      :: lastn (Z.to_nat (2 * max_history + 1)) (transcript qa).
Proof.
  intros Hmh. induction qa as [|[q a] qa IH] using rev_ind.
  - now repeat split.
  - unfold exchanges, talks in *. rewrite map_app, fold_left_app.
    cbn [map fold_left fst snd].
    set (bot := fold_left talk_turn _ _) in *.
    destruct IH as (Es & Et & Em).
    set (T' := Z.to_nat (max_history * 2 - 1)).
    assert (ET : Z.to_nat (max_history * 2) = S T') by (unfold T'; lia).
    assert (EN : Z.to_nat (2 * max_history + 1) = S (S T')) by (unfold T'; lia).
    rewrite EN in *.
    unfold talk_turn, answered, talk.
    cbn [fst snd system_message max_history_tokens messages set_messages].
    repeat split; try assumption.
    rewrite transcript_snoc, !lastn_snoc.
    destruct (Z_le_gt_dec (Z.of_nat (length (messages bot)))
                (max_history_tokens bot)) as [Hs|Hl].
    + rewrite request_short by assumption.
      rewrite Em in *. simpl in Hs. rewrite length_lastn in Hs.
      rewrite (lastn_all (n := S (S T'))), (lastn_all (n := T')) by lia.
      reflexivity.
    + rewrite request_long by lia.
      rewrite Es, Et, ET, Em in *. simpl in Hl. rewrite length_lastn in Hl.
      rewrite <- !app_comm_cons.
      rewrite lastn_cons by (rewrite length_app, length_lastn; cbn [length]; lia).
      now rewrite lastn_snoc, lastn_lastn by lia.
Qed.

(** C1, as stated, fails: with [max_history = 1], after one answered
    question a failed call leaves two messages where there were three.
    The window cut made before the call is not undone. *)
Lemma failed_talk_keeps_the_cut :
  let bot := talks (init "S" 1) [answered "hola" "buenas"] in
  let create : Completion := fun _ => Raises "timeout" in
  messages bot = [msg system "S"; msg user "hola"; msg assistant "buenas"] /\
  create (request bot "otra") = Raises "timeout" /\
  messages (snd (talk create bot "otra"))
  = [msg system "S"; msg assistant "buenas"] /\
  length (messages (snd (talk create bot "otra"))) <> length (messages bot).
Proof.
  repeat split. simpl. discriminate.
Qed.

(** C1, amended: when the list holds at most [2 * max_history] messages,
    so that appending the user message does not trigger the sliding
    window, a call of [talk] whose completion request raises returns the
    apology and leaves the chatbot, and so its message list, exactly as
    it was before the call. *)
Theorem failed_talk_rolls_back create self m e :
  create (request self m) = Raises e ->
  (Z.of_nat (length (messages self)) <= max_history_tokens self)%Z ->
  talk create self m = (Return apology, self).
Proof.
  intros E H. rewrite (talk_failure _ _ _ E).
  rewrite request_short by assumption.
  now rewrite removelast_last, set_messages_same.
Qed.

Lemma failed_talk_rolls_back_witness :
  let bot := talks (init "S" 3) [answered "hola" "buenas"] in
  let create : Completion := fun _ => Raises "timeout" in
  create (request bot "otra") = Raises "timeout" /\
  (Z.of_nat (length (messages bot)) <= max_history_tokens bot)%Z /\
  talk create bot "otra" = (Return apology, bot).
Proof.
  intros bot create.
  assert (E : create (request bot "otra") = Raises "timeout") by reflexivity.
  assert (H : (Z.of_nat (length (messages bot)) <= max_history_tokens bot)%Z)
    by (vm_compute; discriminate).
  exact (conj E (conj H (failed_talk_rolls_back create bot "otra" E H))).
Defined.

(** C2, as stated, fails: with [max_history = 1], after two answered
    questions the system message is followed by three messages, not two. *)
Lemma three_messages_after_the_system_message :
  let bot :=
    talks (init "S" 1) (exchanges [("q1", "a1"); ("q2", "a2")]) in
  messages bot
  = [msg system "S"; msg assistant "a1"; msg user "q2"; msg assistant "a2"] /\
  length (tl (messages bot)) <> Z.to_nat (2 * 1).
Proof.
  split; [reflexivity|]. simpl. discriminate.
Qed.

(** C2, amended: for [max_history >= 1], after any conversation of more
    than [max_history] answered questions the message list is the system
    message followed by exactly [2 * max_history + 1] messages, the most
    recent ones of the transcript; the bound [2 * max_history] holds for
    the list sent to the completion backend, which is the system message
    followed by the [2 * max_history] most recent messages, the new
    question included. *)
Theorem window_after_answers system_prompt max_history ts qa :
  (1 <= max_history)%Z ->
  succeeded (init system_prompt max_history) ts qa ->
  (max_history < Z.of_nat (length qa))%Z ->
  let bot := talks (init system_prompt max_history) ts in
  let recent := lastn (Z.to_nat (2 * max_history + 1)) (transcript qa) in
  messages bot = msg system system_prompt :: recent /\
  length recent = Z.to_nat (2 * max_history + 1) /\
  forall m,
    let sent :=
      lastn (Z.to_nat (2 * max_history)) (transcript qa ++ [msg user m]) in
    request bot m = msg system system_prompt :: sent /\
    length sent = Z.to_nat (2 * max_history).
Proof.
  intros Hmh Hs Hn bot recent. subst bot.
  rewrite (succeeded_talks Hs).
  destruct (exchanges_state system_prompt qa Hmh) as (Es & Et & Em).
  set (bot := talks _ _) in *.
  assert (Hl : length recent = Z.to_nat (2 * max_history + 1)).
  { unfold recent. rewrite length_lastn, length_transcript. lia. }
  repeat split; try assumption.
  - rewrite request_long.
    + rewrite Em, Et, Es. fold recent. rewrite <- app_comm_cons.
      replace (max_history * 2)%Z with (2 * max_history)%Z by lia.
      set (T' := Z.to_nat (2 * max_history - 1)).
      replace (Z.to_nat (2 * max_history)) with (S T') by (unfold T'; lia).
      rewrite lastn_cons by (rewrite length_app, Hl; cbn [length]; lia).
      unfold recent. now rewrite !lastn_snoc, lastn_lastn by lia.
    + rewrite Et. lia.
    + rewrite Et, Em. fold recent. cbn [length]. rewrite Hl. lia.
  - rewrite length_lastn, length_app, length_transcript. cbn [length]. lia.
Qed.

Lemma window_after_answers_witness :
  let ts := [answered "q1" "a1"; answered "q2" "a2"; answered "q3" "a3"] in
  let qa := [("q1", "a1"); ("q2", "a2"); ("q3", "a3")] in
  (1 <= 2)%Z /\
  succeeded (init "S" 2) ts qa /\
  (2 < Z.of_nat (length qa))%Z /\
  messages (talks (init "S" 2) ts)
  = msg system "S" :: lastn (Z.to_nat (2 * 2 + 1)) (transcript qa).
Proof.
  intros ts qa.
  assert (H1 : (1 <= 2)%Z) by lia.
  assert (H2 : succeeded (init "S" 2) ts qa)
    by (repeat (apply (@succeeded_cons _ (answered _ _)); [reflexivity|]);
        apply succeeded_nil).
  assert (H3 : (2 < Z.of_nat (length qa))%Z) by (simpl; lia).
  exact (conj H1 (conj H2 (conj H3
           (proj1 (window_after_answers H1 H2 H3))))).
Defined.

(** C3, as stated, fails: a chatbot can be built with a negative
    [max_history]; with [max_history = -1] the cut keeps
    [[system] + messages[2:]], which is the system message alone, and the
    [pop] of a failed call removes it: the list is left empty. *)
Lemma negative_max_history_evicts_the_system_message :
  let bot := init "S" (-1) in
  let create : Completion := fun _ => Raises "timeout" in
  request bot "q1" = [msg system "S"] /\
  messages (snd (talk create bot "q1")) = [] /\
  nth_error (messages (talks bot [failed "q1" "timeout"])) 0
  <> Some (msg system "S") /\
  ~ In (msg system "S") (messages (talks bot [failed "q1" "timeout"])).
Proof.
  repeat split; [discriminate|]. intros [].
Qed.

(** C3, amended: for every chatbot built with a max_history that is not
    negative and every conversation, whether its calls succeed or fail,
    the message list starts with the system message; nothing removes
    it. *)
Theorem system_message_stays_first system_prompt max_history ts :
  (0 <= max_history)%Z ->
  nth_error (messages (talks (init system_prompt max_history) ts)) 0
  = Some (msg system system_prompt).
Proof.
  intros H.
  destruct (talks_pinned ts (init_pinned system_prompt H))
    as ((_ & rest & E) & Es).
  now rewrite E, Es.
Qed.

Lemma system_message_stays_first_witness :
  (0 <= 0)%Z /\
  nth_error
    (messages (talks (init "S" 0) [answered "q1" "a1"; failed "q2" "timeout"]))
    0
  = Some (msg system "S").
Proof.
  assert (H : (0 <= 0)%Z) by lia.
  exact (conj H (system_message_stays_first "S"
                   [answered "q1" "a1"; failed "q2" "timeout"] H)).
Defined.

(** With [max_history = 0] the slice [messages[-0:]] is the whole
    list, so the cut lengthens the list instead of shortening it. *)
Remark zero_max_history_grows :
  messages (talks (init "S" 0) (exchanges [("q1", "a1")]))
  = [msg system "S"; msg system "S"; msg user "q1"; msg assistant "a1"].
Proof. reflexivity. Qed.

End ChatSession.

(** ** The loader of [document_processor.py] *)

Module LoaderFacts.
Import DocumentProcessor.

Lemma load_loop_spec fs file_paths : forall all_documents failed_files,
  load_loop fs file_paths all_documents failed_files
  = (all_documents ++ flat_map (documents_of fs) (filter (loads fs) file_paths),
     failed_files ++ filter (fun p => negb (loads fs p)) file_paths).
Proof.
  induction file_paths as [|p ps IH]; intros docs failed; simpl.
  - now rewrite !app_nil_r.
  - destruct (load_file fs p) as [documents|e] eqn:E.
    + assert (L : loads fs p = true) by (unfold loads; now rewrite E).
      assert (D : documents_of fs p = documents)
        by (unfold documents_of; now rewrite E).
      rewrite L. simpl. now rewrite D, IH, <- app_assoc.
    + assert (L : loads fs p = false) by (unfold loads; now rewrite E).
      rewrite L. simpl. now rewrite IH, <- app_assoc.
Qed.

(** C9: [load_multiple_files] returns for every list of paths; the
    documents returned are those of the files that load, concatenated in
    the order of the list, and the failed files are exactly the paths
    whose load raises, in the order of the list. *)
Theorem load_multiple_files_skips_failures fs file_paths :
  load_multiple_files fs file_paths
  = Return (flat_map (documents_of fs) (filter (loads fs) file_paths),
            filter (fun p => negb (loads fs p)) file_paths)
  /\ forall p,
       In p (filter (fun p => negb (loads fs p)) file_paths)
       <-> In p file_paths /\ exists e, load_file fs p = Raises e.
Proof.
  split.
  - unfold load_multiple_files. now rewrite load_loop_spec.
  - intros p. rewrite filter_In. unfold loads.
    destruct (load_file fs p); simpl; split; intros [H1 H2]; split;
      try assumption; try discriminate; eauto.
    now destruct H2.
Qed.

End LoaderFacts.

(** ** The read-eval-print loops *)

Module ReplFacts.
Import Custom PyFacts.

Lemma lower_salir v : case_variant v "salir" -> lower v = "salir".
Proof. intros H. now rewrite (lower_case_variant H). Qed.

(** C10: a line that is [salir] in any mix of upper and lower case ends
    the loop of both scripts by its [break]: no call of [talk] is made
    for it, and the lines after it are not read. *)
Theorem salir_in_any_case_breaks v :
  case_variant v "salir" ->
  (forall create n bot rest,
      CustomMain.loop create n bot (v :: rest) = (Break, bot, [])) /\
  (forall create n bot rest,
      Basic.loop create n bot (v :: rest) = (Break, bot, [])).
Proof.
  intros H. split; intros; simpl; now rewrite (lower_salir H).
Qed.

Lemma salir_in_any_case_breaks_witness :
  case_variant "SaLIR" "salir" /\
  (forall create n bot rest,
      CustomMain.loop create n bot ("SaLIR" :: rest) = (Break, bot, [])) /\
  (forall create n bot rest,
      Basic.loop create n bot ("SaLIR" :: rest) = (Break, bot, [])).
Proof.
  assert (H : case_variant "SaLIR" "salir").
  { apply (@cv_swap "s"), cv_same, (@cv_swap "l"), (@cv_swap "i"),
      (@cv_swap "r"), cv_empty. }
  exact (conj H (salir_in_any_case_breaks H)).
Defined.

(** In [06 - custom.py], where [talk] catches what the backend raises,
    the loop reaches that line whatever was typed before it. *)
Lemma custom_loop_reaches_salir create v rest : forall pre n bot,
  case_variant v "salir" ->
  exists bot' out,
    CustomMain.loop create n bot (pre ++ v :: rest) = (Break, bot', out).
Proof.
  induction pre as [|line pre IH]; intros n bot H.
  - exists bot, []. simpl. now rewrite (lower_salir H).
  - simpl. destruct (String.eqb (lower line) "salir"); [now eauto|].
    destruct (ChatSession.talk_returns (create n) bot line) as (r & E).
    destruct (talk (create n) bot line) as [o bot1]. simpl in E. subst o.
    destruct (IH (S n) bot1 H) as (bot' & out & ->).
    now eauto.
Qed.

End ReplFacts.

(** ** The vector store and the RAG chain *)

Module VectorStoreFacts.
Import DocumentProcessor SpecStore.

Lemma filter_listed_ids (l : list (nat * Document)) : forall ids,
  incl (map fst l) ids ->
  filter (fun r => negb (existsb (Nat.eqb (fst r)) ids)) l = [].
Proof.
  induction l as [|r l IH]; intros ids H; [reflexivity|].
  assert (E : existsb (Nat.eqb (fst r)) ids = true).
  { apply existsb_exists. exists (fst r). split; [|apply Nat.eqb_refl].
    apply H. now left. }
  cbn [filter]. rewrite E. cbn [negb]. apply IH. intros x Hx. apply H. now right.
Qed.

Section Store.
Variable distance : string -> string -> Q.

Local Notation "'db'" := (SpecStore.collection distance).

Lemma add_documents_spec F s :
  DatabaseManager.add_documents (vectordb := db) F s
  = (Return (length F),
     {| records := records s ++ combine (seq (next_id s) (length F)) F;
        next_id := next_id s + length F |}).
Proof. reflexivity. Qed.

(** [clear_all_documents] on the store of the specification: it
    reports the number of records and leaves none. *)
Lemma clear_all_documents_spec s :
  exists message,
    DatabaseManager.clear_all_documents (vectordb := db) s
    = (Return {| DatabaseManager.Cleared.success := true;
                 DatabaseManager.Cleared.deleted_count := length (records s);
                 DatabaseManager.Cleared.message := message |},
       {| records := []; next_id := next_id s |}).
Proof.
  destruct s as [rs n].
  unfold DatabaseManager.clear_all_documents, try_except, bind, ret. simpl.
  destruct rs as [|r rs]; simpl; [eauto|].
  rewrite Nat.eqb_refl. simpl. eexists. f_equal. f_equal.
  apply (@filter_listed_ids rs (fst r :: map fst rs)).
  intros x Hx. now right.
Qed.

Lemma get_stats_empty n :
  DatabaseManager.get_stats (vectordb := db) {| records := []; next_id := n |}
  = (Return {| DatabaseManager.Stats.count := 0;
               DatabaseManager.Stats.status := "empty";
               DatabaseManager.Stats.message :=
                 "📊 **Estado:** Base de conocimiento vacía (0 fragmentos)" |},
     {| records := []; next_id := n |}).
Proof. reflexivity. Qed.

(** C4: on the store of the specification, for every state [s] and
    every list of fragments [F]: after [add_documents(F)] and
    [clear_all_documents()], which succeeds and reports the number of
    records deleted, [get_stats()] reports a count of zero and the
    retriever returns the empty list for every question and every [k];
    and [clear_all_documents()] on a store without records succeeds,
    reports zero deleted and changes nothing. *)
Theorem clear_after_add_leaves_nothing s F text k n :
  let s1 := snd (DatabaseManager.add_documents (vectordb := db) F s) in
  let s2 := snd (DatabaseManager.clear_all_documents (vectordb := db) s1) in
  let none := {| records := []; next_id := n |} in
  fst (DatabaseManager.add_documents (vectordb := db) F s) = Return (length F)
  /\ (exists r,
        fst (DatabaseManager.clear_all_documents (vectordb := db) s1) = Return r
        /\ DatabaseManager.Cleared.success r = true
        /\ DatabaseManager.Cleared.deleted_count r
           = length (records s) + length F)
  /\ (exists st,
        DatabaseManager.get_stats (vectordb := db) s2 = (Return st, s2)
        /\ DatabaseManager.Stats.count st = 0)
  /\ DatabaseManager.get_retriever (vectordb := db) k text s2 = (Return [], s2)
  /\ DatabaseManager.clear_all_documents (vectordb := db) none
     = (Return {| DatabaseManager.Cleared.success := true;
                  DatabaseManager.Cleared.deleted_count := 0;
                  DatabaseManager.Cleared.message :=
                    "La base de datos ya estaba vacía." |},
        none).
Proof.
  intros s1 s2 none.
  destruct (clear_all_documents_spec s1) as (message & E).
  subst s2. rewrite E. subst s1. rewrite add_documents_spec. simpl.
  repeat split.
  - eexists. repeat split.
    now rewrite length_app, length_combine, length_seq, Nat.min_id.
  - eexists. split; [apply get_stats_empty|reflexivity].
  - unfold DatabaseManager.get_retriever. simpl. now destruct k.
Qed.

(** C5: on a store of the specification that holds no record, for
    every text and every [k], the similarity search and the retriever of
    [get_retriever(k)] return the empty list without raising, and
    [consulta.py] prints that nothing was found and returns. *)
Theorem query_on_empty_store_is_empty text k n :
  let none := {| records := []; next_id := n |} in
  Chroma.similarity_search (Collection := db) text k none = (Return [], none)
  /\ DatabaseManager.get_retriever (vectordb := db) k text none
     = (Return [], none)
  /\ Consulta.main (vectordb := db) text none
     = (Return
          (if String.eqb text "" then
             ["Por favor, proporciona un texto para la consulta."]
           else
             ["Cargando modelo de embeddings y base de datos...";
              ("Realizando búsqueda MMR para: '" ++ text ++ "'
")%string;
              Consulta.no_results]),
        none).
Proof.
  intros none. repeat split.
  - simpl. now destruct k.
  - unfold DatabaseManager.get_retriever. simpl. now destruct k.
  - unfold Consulta.main. now destruct (String.eqb text "").
Qed.

End Store.
End VectorStoreFacts.

(** ** Failures of the backends *)

Module FailureFacts.
Import DocumentProcessor Custom.

Section Chain.
Context {S : Type} {vectordb : Chroma.Collection S}.
Variable llm : string -> outcome string.
Variable repr : list Document -> string.

Lemma query_retrieval_failure question k s e s' :
  Chroma.similarity_search question k s = (Raises e, s') ->
  RAGChain.query llm repr question k s = (Return (RAGChain.sorry e), s').
Proof.
  intros E.
  unfold RAGChain.query, RAGChain.create_chain, DatabaseManager.get_retriever,
    try_except, bind.
  now rewrite E.
Qed.

Lemma query_completion_failure question k s docs e s' :
  Chroma.similarity_search question k s = (Return docs, s') ->
  llm (RAGChain.prompt repr docs question) = Raises e ->
  RAGChain.query llm repr question k s = (Return (RAGChain.sorry e), s').
Proof.
  intros E L.
  unfold RAGChain.query, RAGChain.create_chain, DatabaseManager.get_retriever,
    try_except, bind, lift.
  now rewrite E, L.
Qed.

Lemma query_returns question k s :
  exists r, fst (RAGChain.query llm repr question k s) = Return r.
Proof.
  unfold RAGChain.query, RAGChain.create_chain, DatabaseManager.get_retriever,
    try_except, bind, lift, ret.
  destruct (Chroma.similarity_search question k s) as [[docs|e] s'];
    [destruct (llm _)|]; simpl; eauto.
Qed.

End Chain.

(** C8: an exception of the completion backend during [talk], and an
    exception of the retrieval or of the completion backend during
    [RAGChain.query], does not escape: [talk] returns its apology and
    [query] returns the message built from the text of the exception. *)
Theorem backend_exceptions_become_strings :
  (forall create self m e,
      create (request self m) = Raises e ->
      fst (talk create self m) = Return apology)
  /\ (forall S (vectordb : Chroma.Collection S) llm repr question k s e s',
        Chroma.similarity_search question k s = (Raises e, s') ->
        RAGChain.query llm repr question k s
        = (Return (RAGChain.sorry e), s'))
  /\ (forall S (vectordb : Chroma.Collection S) llm repr question k s docs e s',
        Chroma.similarity_search question k s = (Return docs, s') ->
        llm (RAGChain.prompt repr docs question) = Raises e ->
        RAGChain.query llm repr question k s
        = (Return (RAGChain.sorry e), s')).
Proof.
  repeat split.
  - intros create self m e E. now rewrite (ChatSession.talk_failure _ _ _ E).
  - intros. now apply query_retrieval_failure.
  - intros. now apply query_completion_failure with (docs := docs).
Qed.

Lemma backend_exceptions_become_strings_witness :
  let create : Completion := fun _ => Raises "timeout" in
  let bot := init "S" 3 in
  let far : string -> string -> Q := fun _ _ => 0%Q in
  let quota : string -> outcome string := fun _ => Raises "quota" in
  let fine : string -> outcome string := fun _ => Return "respuesta" in
  let repr : list Document -> string := fun _ => "[]" in
  (create (request bot "hola") = Raises "timeout"
   /\ fst (talk create bot "hola") = Return apology)
  /\ (Chroma.similarity_search (Collection := Unreachable.collection)
        "hola" 5 tt
      = (Raises Unreachable.refused, tt)
      /\ RAGChain.query (vectordb := Unreachable.collection)
           fine repr "hola" 5 tt
         = (Return (RAGChain.sorry Unreachable.refused), tt))
  /\ (Chroma.similarity_search (Collection := SpecStore.collection far)
        "hola" 5 SpecStore.empty
      = (Return [], SpecStore.empty)
      /\ quota (RAGChain.prompt repr [] "hola") = Raises "quota"
      /\ RAGChain.query (vectordb := SpecStore.collection far)
           quota repr "hola" 5 SpecStore.empty
         = (Return (RAGChain.sorry "quota"), SpecStore.empty)).
Proof.
  intros create bot far quota fine repr.
  destruct backend_exceptions_become_strings as (T & R & C).
  assert (H1 : create (request bot "hola") = Raises "timeout") by reflexivity.
  assert (H2 : Chroma.similarity_search (Collection := Unreachable.collection)
                 "hola" 5 tt
               = (Raises Unreachable.refused, tt)) by reflexivity.
  assert (H3 : Chroma.similarity_search (Collection := SpecStore.collection far)
                 "hola" 5 SpecStore.empty
               = (Return [], SpecStore.empty)) by reflexivity.
  assert (H4 : quota (RAGChain.prompt repr [] "hola") = Raises "quota")
    by reflexivity.
  exact (conj (conj H1 (T create bot "hola" "timeout" H1))
           (conj (conj H2 (R _ _ fine repr "hola" 5 tt _ tt H2))
              (conj H3 (conj H4
                 (C _ _ quota repr "hola" 5 SpecStore.empty [] "quota"
                    SpecStore.empty H3 H4))))).
Defined.

End FailureFacts.

(** ** More on the chat sessions *)

Module ChatFacts.
Import Custom PyFacts ChatSession.

Lemma talk_tokens create self m :
  max_history_tokens (snd (talk create self m)) = max_history_tokens self.
Proof.
  unfold talk. cbv zeta. destruct (create _); [reflexivity|].
  now destruct (pop _) as [[? ?]|].
Qed.

Lemma talks_tokens ts : forall self,
  max_history_tokens (talks self ts) = max_history_tokens self.
Proof.
  induction ts as [|t ts IH]; intros self; [reflexivity|].
  simpl. rewrite IH. apply talk_tokens.
Qed.

Lemma request_length self m :
  (0 < max_history_tokens self)%Z ->
  length (request self m) <= Z.to_nat (max_history_tokens self) + 1.
Proof.
  intros H. unfold request, window.
  destruct (Z.gtb_spec (Z.of_nat (length (messages self ++ [msg user m])))
              (max_history_tokens self + 1)) as [G|G].
  - rewrite slice_from_neg by assumption. cbn [app length].
    rewrite length_lastn. lia.
  - lia.
Qed.

Lemma talk_length create self m :
  (0 < max_history_tokens self)%Z ->
  length (messages (snd (talk create self m)))
  <= Z.to_nat (max_history_tokens self) + 2.
Proof.
  intros H. pose proof (request_length self m H) as L.
  unfold talk. cbv zeta. destruct (create _).
  - cbn [snd messages set_messages]. rewrite length_app. cbn [length]. lia.
  - destruct (pop (request self m)) as [[ms x]|e'] eqn:P;
      cbn [snd messages set_messages]; [|lia].
    unfold pop in P. destruct (rev (request self m)) as [|y r] eqn:R;
      [discriminate|].
    injection P as <- <-. apply (f_equal (@length _)) in R.
    rewrite length_rev in R. cbn [length] in R. rewrite length_rev. lia.
Qed.

(** X1: with [max_history >= 1] the history never grows beyond the
    system message and [2 * max_history + 1] messages, whatever the
    backend does, and what is sent to the backend never holds more than
    the system message and [2 * max_history] messages. *)
Theorem history_stays_bounded system_prompt max_history ts m :
  (1 <= max_history)%Z ->
  length (messages (talks (init system_prompt max_history) ts))
  <= Z.to_nat (2 * max_history + 2)
  /\ length (request (talks (init system_prompt max_history) ts) m)
     <= Z.to_nat (2 * max_history + 1).
Proof.
  intros H.
  assert (T : forall ts,
             max_history_tokens (talks (init system_prompt max_history) ts)
             = (max_history * 2)%Z) by (intros; now rewrite talks_tokens).
  split.
  - destruct ts as [|t ts] using rev_ind;
      [cbn [talks fold_left init messages length]; lia|].
    unfold talks. rewrite fold_left_app. cbn [fold_left].
    fold (talks (init system_prompt max_history) ts). unfold talk_turn.
    etransitivity; [apply talk_length; rewrite T; lia|]. rewrite T. lia.
  - etransitivity; [apply request_length; rewrite T; lia|]. rewrite T. lia.
Qed.

Lemma history_stays_bounded_witness :
  (1 <= 1)%Z /\
  length (messages (talks (init "S" 1)
                      [answered "q1" "a1"; failed "q2" "timeout";
                       answered "q3" "a3"; answered "q4" "a4"]))
  <= Z.to_nat (2 * 1 + 2).
Proof.
  assert (H : (1 <= 1)%Z) by lia.
  exact (conj H (proj1 (history_stays_bounded "S"
                          [answered "q1" "a1"; failed "q2" "timeout";
                           answered "q3" "a3"; answered "q4" "a4"] "q5" H))).
Defined.

Lemma request_ends_with_question self m :
  pinned self ->
  exists middle,
    request self m = system_message self :: middle ++ [msg user m].
Proof.
  intros (H0 & rest & E). unfold request, window.
  destruct (_ >? _)%Z.
  - destruct (Z.eq_dec (max_history_tokens self) 0) as [Z0|NZ].
    + rewrite Z0, slice_from_zero. now exists (messages self).
    + rewrite slice_from_neg by lia.
      replace (Z.to_nat (max_history_tokens self))
        with (S (Z.to_nat (max_history_tokens self - 1))) by lia.
      rewrite lastn_snoc. now eexists.
  - rewrite E. now exists rest.
Qed.

(** X2: with a [max_history] that is not negative, what [talk] sends to
    the backend starts with the system message and ends with the
    question just asked, in every state a conversation can reach. *)
Theorem request_keeps_prompt_and_question system_prompt max_history ts m :
  (0 <= max_history)%Z ->
  exists middle,
    request (talks (init system_prompt max_history) ts) m
    = msg system system_prompt :: middle ++ [msg user m].
Proof.
  intros H.
  destruct (talks_pinned ts (init_pinned system_prompt H)) as (P & Es).
  destruct (request_ends_with_question m P) as (middle & E).
  exists middle. now rewrite E, Es.
Qed.

Lemma request_keeps_prompt_and_question_witness :
  (0 <= 0)%Z /\
  exists middle,
    request (talks (init "S" 0) [answered "q1" "a1"]) "q2"
    = msg system "S" :: middle ++ [msg user "q2"].
Proof.
  assert (H : (0 <= 0)%Z) by lia.
  exact (conj H (request_keeps_prompt_and_question "S"
                   [answered "q1" "a1"] "q2" H)).
Defined.

(** X3: with a window of at least one message, asking again after a
    failed call sends exactly what the failed call sent: the rollback
    lets the user retry. *)
Theorem retry_sends_the_same_request create self m e :
  (1 <= max_history_tokens self)%Z ->
  create (request self m) = Raises e ->
  request (snd (talk create self m)) m = request self m.
Proof.
  intros H E. rewrite (talk_failure _ _ _ E). cbn [snd].
  destruct (Z_le_gt_dec (Z.of_nat (length (messages self)))
              (max_history_tokens self)) as [Hs|Hl].
  - rewrite (request_short _ _ Hs), removelast_last.
    now rewrite set_messages_same, (request_short _ _ Hs).
  - rewrite (request_long self m) by lia.
    replace (Z.to_nat (max_history_tokens self))
      with (S (Z.to_nat (max_history_tokens self - 1))) by lia.
    rewrite lastn_snoc, app_comm_cons, removelast_last.
    rewrite request_short; [reflexivity|].
    cbn [messages set_messages max_history_tokens length].
    rewrite length_lastn. lia.
Qed.

Lemma retry_sends_the_same_request_witness :
  let bot := talks (init "S" 1) [answered "q1" "a1"; answered "q2" "a2"] in
  let create : Completion := fun _ => Raises "timeout" in
  (1 <= max_history_tokens bot)%Z /\
  create (request bot "q3") = Raises "timeout" /\
  request (snd (talk create bot "q3")) "q3" = request bot "q3".
Proof.
  intros bot create.
  assert (H : (1 <= max_history_tokens bot)%Z) by (vm_compute; discriminate).
  assert (E : create (request bot "q3") = Raises "timeout") by reflexivity.
  exact (conj H (conj E (retry_sends_the_same_request create bot "q3" H E))).
Defined.

End ChatFacts.

(** ** More on the loops of the chat scripts *)

Module LoopFacts.
Import Custom PyFacts ChatSession.

(** X4: the loop of [06 - custom.py] cannot be ended by the backend: it
    ends by its [break] when some line is the exit command and by the end
    of the input otherwise, and it prints one reply for each line read
    before the exit command. *)
Theorem custom_loop_only_ends_on_salir_or_eof create stdin : forall n bot,
  fst (fst (CustomMain.loop create n bot stdin))
  = (if CustomMain.has_salir stdin then Break else Uncaught EOFError)
  /\ length (snd (CustomMain.loop create n bot stdin))
     = length (CustomMain.before_salir stdin).
Proof.
  induction stdin as [|entrada rest IH]; intros n bot; [now split|].
  cbn [CustomMain.loop CustomMain.has_salir CustomMain.before_salir existsb].
  destruct (String.eqb (lower entrada) "salir"); [now split|].
  destruct (talk_returns (create n) bot entrada) as (r & E).
  destruct (talk (create n) bot entrada) as [o bot1]. simpl in E. subst o.
  destruct (IH (S n) bot1) as (He & Hout).
  destruct (CustomMain.loop create (S n) bot1 rest) as [[e b] out].
  cbn [fst snd orb length] in *. now rewrite He, Hout.
Qed.

Lemma basic_talks_snoc self ts t :
  Basic.talks self (ts ++ [t])
  = snd (Basic.talk (snd t) (Basic.talks self ts) (fst t)).
Proof. unfold Basic.talks. now rewrite fold_left_app. Qed.

(** X5: the chatbot of [02 - chatbot.py] never forgets: after any
    number of answered questions its list is the system message followed
    by the whole transcript, [2 n + 1] messages after [n] questions. *)
Theorem basic_history_is_the_whole_transcript system_prompt qa :
  Basic.talks (Basic.init system_prompt) (exchanges qa)
  = msg system system_prompt :: transcript qa
  /\ length (Basic.talks (Basic.init system_prompt) (exchanges qa))
     = 2 * length qa + 1.
Proof.
  assert (E : Basic.talks (Basic.init system_prompt) (exchanges qa)
              = msg system system_prompt :: transcript qa).
  { induction qa as [|[q a] qa IH] using rev_ind; [reflexivity|].
    replace (exchanges (qa ++ [(q, a)]))
      with (exchanges qa ++ [answered q a])
      by (unfold exchanges; now rewrite map_app).
    rewrite basic_talks_snoc, IH. unfold Basic.talk, answered.
    cbn [fst snd]. rewrite transcript_snoc.
    now rewrite !app_comm_cons. }
  split; [assumption|]. rewrite E. cbn [length].
  rewrite length_transcript. lia.
Qed.

(** X6: when the backend raises for a line that is not the exit
    command, the loop of [02 - chatbot.py] ends with that exception and
    the question stays in the history, while the loop of
    [06 - custom.py] prints the apology and goes on with the next line. *)
Theorem backend_failure_ends_only_the_plain_loop create n line rest e :
  String.eqb (lower line) "salir" = false ->
  (forall (bot : Basic.Chatbot),
      create n (bot ++ [msg user line]) = Raises e ->
      Basic.loop create n bot (line :: rest)
      = (Uncaught e, bot ++ [msg user line], []))
  /\ (forall (bot : Chatbot),
        create n (request bot line) = Raises e ->
        CustomMain.loop create n bot (line :: rest)
        = let next := set_messages bot (removelast (request bot line)) in
          let '(ending, final, out) :=
            CustomMain.loop create (S n) next rest in
          (ending, final, ("Historiador: " ++ apology)%string :: out)).
Proof.
  intros L. split; intros bot E.
  - cbn [Basic.loop]. rewrite L. unfold Basic.talk. cbv zeta. now rewrite E.
  - cbn [CustomMain.loop]. rewrite L. now rewrite (talk_failure _ _ _ E).
Qed.

Lemma backend_failure_ends_only_the_plain_loop_witness :
  let create : nat -> Completion := fun _ _ => Raises "timeout" in
  String.eqb (lower "Hola") "salir" = false /\
  Basic.loop create 0 (Basic.init "S") ["Hola"; "salir"]
  = (Uncaught "timeout", Basic.init "S" ++ [msg user "Hola"], []).
Proof.
  intros create.
  assert (L : String.eqb (lower "Hola") "salir" = false) by reflexivity.
  exact (conj L
           (proj1 (backend_failure_ends_only_the_plain_loop
                     create 0 "Hola" ["salir"] "timeout" L)
              (Basic.init "S") eq_refl)).
Defined.

End LoopFacts.

(** ** More on the document processor *)

Module ProcessorFacts.
Import DocumentProcessor LoaderFacts.

Lemma length_filter_both {A} (f : A -> bool) (l : list A) :
  length (filter f l) + length (filter (fun x => negb (f x)) l) = length l.
Proof.
  induction l as [|x l IH]; [reflexivity|].
  simpl. destruct (f x); simpl; lia.
Qed.

Lemma load_multiple_files_spec fs file_paths :
  load_multiple_files fs file_paths
  = Return (flat_map (documents_of fs) (filter (loads fs) file_paths),
            filter (fun p => negb (loads fs p)) file_paths).
Proof. unfold load_multiple_files. now rewrite load_loop_spec. Qed.

Lemma unsupported_fails fs p :
  supported p = false -> load_file fs p = Raises (unsupported p).
Proof.
  unfold supported, load_file. intros H.
  apply orb_false_iff in H as (-> & ->). reflexivity.
Qed.

(** X7: in the result of [load_multiple_files] every path is counted
    once: the failed files and the files that loaded add up to the list
    given, so the number of successes printed in the summary,
    [len(file_paths) - len(failed_files)], is the number of files that
    loaded. *)
Theorem load_multiple_files_counts fs file_paths :
  exists all_documents failed_files,
    load_multiple_files fs file_paths = Return (all_documents, failed_files)
    /\ length file_paths - length failed_files
       = length (filter (loads fs) file_paths)
    /\ length failed_files <= length file_paths.
Proof.
  eexists _, _. split; [apply load_multiple_files_spec|].
  pose proof (length_filter_both (loads fs) file_paths). lia.
Qed.

(** X8: loading a list in two parts gives the same documents and the
    same failed files, in the same order, as loading it at once. *)
Theorem load_multiple_files_app fs a b da fa db fb :
  load_multiple_files fs a = Return (da, fa) ->
  load_multiple_files fs b = Return (db, fb) ->
  load_multiple_files fs (a ++ b) = Return (da ++ db, fa ++ fb).
Proof.
  rewrite !load_multiple_files_spec. intros [= <- <-] [= <- <-].
  now rewrite !filter_app, flat_map_app.
Qed.

(** X9: a path that ends neither in [.pdf] nor in [.txt] (the test is
    case sensitive) is always reported as failed, whatever the loaders
    would do with it. *)
Theorem other_extensions_always_fail fs file_paths p :
  supported p = false ->
  In p file_paths ->
  exists all_documents failed_files,
    load_multiple_files fs file_paths = Return (all_documents, failed_files)
    /\ In p failed_files.
Proof.
  intros U I. eexists _, _. split; [apply load_multiple_files_spec|].
  apply filter_In. split; [assumption|].
  unfold loads. now rewrite (unsupported_fails fs p U).
Qed.

(** [process_files] in terms of what was loaded. *)
Lemma process_files_spec fs text_splitter file_paths :
  file_paths <> [] ->
  let documents := flat_map (documents_of fs) (filter (loads fs) file_paths) in
  let failed_files := filter (fun p => negb (loads fs p)) file_paths in
  process_files fs text_splitter file_paths
  = match documents with
    | [] =>
        Return {| Processed.success := false;
                  Processed.splits := [];
                  Processed.document_count := 0;
                  Processed.split_count := 0;
                  Processed.failed_files := failed_files;
                  Processed.message :=
                    "❌ No se pudieron cargar documentos válidos" |}
    | _ :: _ =>
        match text_splitter documents with
        | Raises e => Raises e
        | Return [] =>
            Return {| Processed.success := false;
                      Processed.splits := [];
                      Processed.document_count := length documents;
                      Processed.split_count := 0;
                      Processed.failed_files := failed_files;
                      Processed.message :=
                        "❌ Los documentos están vacíos o no se pudieron dividir" |}
        | Return ((_ :: _) as splits) =>
            Return {| Processed.success := true;
                      Processed.splits := splits;
                      Processed.document_count := length documents;
                      Processed.split_count := length splits;
                      Processed.failed_files := failed_files;
                      Processed.message :=
                        ("✅ Procesados " ++ str (length splits)
                           ++ " fragmentos de " ++ str (length documents)
                           ++ " documento(s)")%string |}
        end
    end.
Proof.
  intros N documents failed_files. unfold process_files.
  destruct file_paths as [|p ps]; [congruence|].
  rewrite load_multiple_files_spec. fold documents. fold failed_files.
  destruct documents; reflexivity.
Qed.

(** X10: whatever [process_files] returns is coherent: [split_count] is
    the number of fragments in [splits], [success] is true exactly when
    there is at least one fragment, and every failed file is one of the
    paths given whose load raised. *)
Theorem process_files_result_is_coherent fs text_splitter file_paths r :
  process_files fs text_splitter file_paths = Return r ->
  Processed.split_count r = length (Processed.splits r)
  /\ (Processed.success r = true <-> Processed.splits r <> [])
  /\ (forall p, In p (Processed.failed_files r) ->
                In p file_paths /\ loads fs p = false).
Proof.
  destruct file_paths as [|p0 ps].
  - intros [= <-]. cbn. repeat split; try congruence; contradiction.
  - rewrite process_files_spec by discriminate. cbv zeta.
    set (l := p0 :: ps).
    assert (F : forall p, In p (filter (fun p => negb (loads fs p)) l) ->
                          In p l /\ loads fs p = false).
    { intros p I. apply filter_In in I as (I & L).
      split; [assumption|]. now apply negb_true_iff. }
    destruct (flat_map _ _) as [|d ds].
    + intros [= <-]. split; [reflexivity|]. split; [|exact F].
      split; cbn; intros; (easy || congruence).
    + destruct (text_splitter _) as [[|x xs]|e]; [| |discriminate];
        intros [= <-]; (split; [reflexivity|]); (split; [|exact F]);
        split; cbn; intros; (easy || congruence).
Qed.

Lemma load_multiple_files_app_witness :
  let fs := {| PyPDFLoader := fun _ => Raises "no such file";
               TextLoader := fun p =>
                 Return [{| page_content := p; metadata := [] |}] |} in
  let d := fun p => {| page_content := p; metadata := [] |} in
  load_multiple_files fs ["a.txt"; "b.pdf"] = Return ([d "a.txt"], ["b.pdf"])
  /\ load_multiple_files fs ["c.doc"; "d.txt"]
     = Return ([d "d.txt"], ["c.doc"])
  /\ load_multiple_files fs (["a.txt"; "b.pdf"] ++ ["c.doc"; "d.txt"])
     = Return ([d "a.txt"] ++ [d "d.txt"], ["b.pdf"] ++ ["c.doc"]).
Proof.
  intros fs d.
  assert (A : load_multiple_files fs ["a.txt"; "b.pdf"]
              = Return ([d "a.txt"], ["b.pdf"])) by reflexivity.
  assert (B : load_multiple_files fs ["c.doc"; "d.txt"]
              = Return ([d "d.txt"], ["c.doc"])) by reflexivity.
  exact (conj A (conj B (@load_multiple_files_app fs _ _ _ _ _ _ A B))).
Defined.

Lemma other_extensions_always_fail_witness :
  let fs := {| PyPDFLoader := fun _ => Return [];
               TextLoader := fun _ => Return [] |} in
  supported "INFORME.PDF" = false
  /\ In "INFORME.PDF" ["notas.txt"; "INFORME.PDF"]
  /\ exists all_documents failed_files,
       load_multiple_files fs ["notas.txt"; "INFORME.PDF"]
       = Return (all_documents, failed_files)
       /\ In "INFORME.PDF" failed_files.
Proof.
  intros fs.
  assert (U : supported "INFORME.PDF" = false) by reflexivity.
  assert (I : In "INFORME.PDF" ["notas.txt"; "INFORME.PDF"])
    by (right; left; reflexivity).
  exact (conj U (conj I (@other_extensions_always_fail fs _ _ U I))).
Defined.

Lemma process_files_result_is_coherent_witness :
  let d := fun p => {| page_content := p; metadata := [] |} in
  let fs := {| PyPDFLoader := fun _ => Raises "no such file";
               TextLoader := fun p => Return [d p] |} in
  let text_splitter := fun docs : list Document => Return (docs ++ docs) in
  let r := {| Processed.success := true;
              Processed.splits := [d "a.txt"; d "a.txt"];
              Processed.document_count := 1;
              Processed.split_count := 2;
              Processed.failed_files := ["b.pdf"];
              Processed.message :=
                "✅ Procesados 2 fragmentos de 1 documento(s)" |} in
  process_files fs text_splitter ["a.txt"; "b.pdf"] = Return r
  /\ Processed.split_count r = length (Processed.splits r).
Proof.
  intros d fs text_splitter r.
  assert (E : process_files fs text_splitter ["a.txt"; "b.pdf"] = Return r)
    by reflexivity.
  exact (conj E (proj1 (@process_files_result_is_coherent
                          fs text_splitter _ _ E))).
Defined.

(** X11: [process_files] lets an exception escape in one case only:
    some document was loaded and the splitter raised on the loaded
    documents.  A file that cannot be loaded never makes it raise. *)
Theorem process_files_raises_only_from_the_splitter
        fs text_splitter file_paths e :
  process_files fs text_splitter file_paths = Raises e
  <-> (flat_map (documents_of fs) (filter (loads fs) file_paths) <> []
       /\ text_splitter
            (flat_map (documents_of fs) (filter (loads fs) file_paths))
          = Raises e).
Proof.
  destruct file_paths as [|p0 ps].
  - cbn. split; [discriminate|]. now intros [N _].
  - rewrite process_files_spec by discriminate. cbv zeta.
    destruct (flat_map _ _) as [|d ds].
    + split; [discriminate|]. now intros [N _].
    + destruct (text_splitter _) as [[|x xs]|e']; split;
        try discriminate; try (intros [_ H]; discriminate H).
      * intros [= ->]. now split.
      * now intros [_ [= ->]].
Qed.

End ProcessorFacts.

(** ** The database manager and the RAG chain over any backend *)

Module BackendFacts.
Import DocumentProcessor.

Ltac run := unfold try_except, bind, ret, lift, raise in *.

Section AnyBackend.
Context {S : Type} {vectordb : Chroma.Collection S}.

(** [get_stats] in terms of the backend's [count]. *)
Lemma get_stats_spec (s : S) :
  exists st s',
    DatabaseManager.get_stats s = (Return st, s')
    /\ ((Chroma.count s = (Return (DatabaseManager.Stats.count st), s')
         /\ DatabaseManager.Stats.status st
            = (if (DatabaseManager.Stats.count st =? 0)%nat
               then "empty" else "active"))
        \/ (exists e,
               Chroma.count s = (Raises e, s')
               /\ DatabaseManager.Stats.count st = 0
               /\ DatabaseManager.Stats.status st = "error")).
Proof.
  unfold DatabaseManager.get_stats. run.
  destruct (Chroma.count s) as [[n|e] s'].
  - destruct (n =? 0)%nat eqn:N; eexists _, _; (split; [reflexivity|]);
      left; cbn; now rewrite N.
  - eexists _, _. split; [reflexivity|]. right. now exists e.
Qed.

(** X12: [get_stats] never raises, whatever the backend does.  When
    the backend gives the count [n], it reports [n] with status [empty]
    if [n] is zero and [active] otherwise; when the backend raises, it
    reports a count of zero with status [error] and the text of the
    exception in the message.  The store is left as the call of [count]
    left it. *)
Theorem get_stats_always_reports (s : S) :
  exists st s',
    DatabaseManager.get_stats s = (Return st, s')
    /\ snd (Chroma.count s) = s'
    /\ (forall n,
          fst (Chroma.count s) = Return n ->
          DatabaseManager.Stats.count st = n
          /\ DatabaseManager.Stats.status st
             = (if (n =? 0)%nat then "empty" else "active"))
    /\ (forall e,
          fst (Chroma.count s) = Raises e ->
          st = {| DatabaseManager.Stats.count := 0;
                  DatabaseManager.Stats.status := "error";
                  DatabaseManager.Stats.message :=
                    ("⚠️ Error al obtener estadísticas: " ++ e)%string |})
    /\ (DatabaseManager.Stats.status st = "active"
        <-> 0 < DatabaseManager.Stats.count st).
Proof.
  unfold DatabaseManager.get_stats. run.
  destruct (Chroma.count s) as [[n|e] s']; cbn [fst snd].
  - destruct (n =? 0)%nat eqn:N; eexists _, _;
      (split; [reflexivity|]); (split; [reflexivity|]);
      cbn [DatabaseManager.Stats.count DatabaseManager.Stats.status];
      (split; [intros n' [= <-]; rewrite N; now split|]);
      (split; [intros e' [=]|]).
    + apply Nat.eqb_eq in N. subst n. split; [discriminate|lia].
    + apply Nat.eqb_neq in N. split; [lia|reflexivity].
  - eexists _, _. split; [reflexivity|]. split; [reflexivity|].
    cbn [DatabaseManager.Stats.count DatabaseManager.Stats.status].
    split; [intros n' [=]|]. split; [now intros e' [= <-]|].
    split; [discriminate|lia].
Qed.

(** X13: [clear_all_documents] never raises, whatever the backend
    does: when a call of the backend raises it reports no success and
    zero deleted, and when it reports success the number deleted is the
    count the backend gave before anything was deleted. *)
Theorem clear_all_documents_always_reports (s : S) :
  exists r s',
    DatabaseManager.clear_all_documents s = (Return r, s')
    /\ (DatabaseManager.Cleared.success r = false ->
        DatabaseManager.Cleared.deleted_count r = 0)
    /\ (DatabaseManager.Cleared.success r = true ->
        fst (Chroma.count s) = Return (DatabaseManager.Cleared.deleted_count r))
    /\ (fst (Chroma.count s) = Return 0 -> s' = snd (Chroma.count s)).
Proof.
  unfold DatabaseManager.clear_all_documents. run.
  destruct (Chroma.count s) as [[n|e] s1]; cbn [fst snd].
  - destruct (Nat.eqb_spec n 0) as [->|N].
    + eexists _, _. split; [reflexivity|]. cbn. repeat split; congruence.
    + destruct (Chroma.get_ids s1) as [[ids|e] s2].
      * destruct ids as [|i ids].
        -- eexists _, _. split; [reflexivity|]. cbn.
           repeat split; congruence.
        -- destruct (Chroma.delete (i :: ids) s2) as [[[]|e] s3];
             eexists _, _; (split; [reflexivity|]); cbn;
             repeat split; congruence.
      * eexists _, _. split; [reflexivity|]. cbn. repeat split; congruence.
  - eexists _, _. split; [reflexivity|]. cbn. repeat split; congruence.
Qed.

Variable llm : string -> outcome string.
Variable repr : list Document -> string.

(** X14: [query_with_sources] never raises, and in what it returns
    [source_count] is the number of documents in [sources]; when the
    first retrieval raises there are no sources and the answer names the
    error. *)
Theorem query_with_sources_always_answers question k (s : S) :
  exists r s',
    RAGChain.query_with_sources llm repr question k s = (Return r, s')
    /\ RAGChain.Sourced.source_count r = length (RAGChain.Sourced.sources r)
    /\ (forall e, fst (Chroma.similarity_search question k s) = Raises e ->
                  r = {| RAGChain.Sourced.answer :=
                           ("Error al procesar la pregunta: " ++ e)%string;
                         RAGChain.Sourced.sources := [];
                         RAGChain.Sourced.source_count := 0 |}).
Proof.
  unfold RAGChain.query_with_sources, RAGChain.query, RAGChain.create_chain,
    DatabaseManager.get_retriever. run.
  destruct (Chroma.similarity_search question k s) as [[docs|e] s1];
    cbn [fst].
  - destruct (Chroma.similarity_search question k s1) as [[docs2|e] s2].
    + destruct (llm _); eexists _, _; (split; [reflexivity|]);
        split; [reflexivity|discriminate|reflexivity|discriminate].
    + eexists _, _. split; [reflexivity|]. split; [reflexivity|discriminate].
  - eexists _, _. split; [reflexivity|]. split; [reflexivity|].
    now intros e' [= ->].
Qed.

(** X15: when the retriever answers and the language model raises,
    [query_with_sources] still returns the documents of the first
    retrieval as sources, with the apology of [query] as the answer. *)
Theorem sources_survive_a_failed_answer question k (s s1 s2 : S)
        docs docs' e :
  Chroma.similarity_search question k s = (Return docs, s1) ->
  Chroma.similarity_search question k s1 = (Return docs', s2) ->
  llm (RAGChain.prompt repr docs' question) = Raises e ->
  RAGChain.query_with_sources llm repr question k s
  = (Return {| RAGChain.Sourced.answer := RAGChain.sorry e;
               RAGChain.Sourced.sources := docs;
               RAGChain.Sourced.source_count := length docs |},
     s2).
Proof.
  intros E1 E2 L.
  unfold RAGChain.query_with_sources, RAGChain.query, RAGChain.create_chain,
    DatabaseManager.get_retriever. run.
  now rewrite E1, E2, L.
Qed.

End AnyBackend.

Lemma sources_survive_a_failed_answer_witness :
  let far : string -> string -> Q := fun _ _ => 0%Q in
  let d := {| page_content := "el cielo es azul"; metadata := [] |} in
  let s := {| SpecStore.records := [(0, d)]; SpecStore.next_id := 1 |} in
  let quota : string -> outcome string := fun _ => Raises "quota" in
  let repr : list Document -> string := fun _ => "[...]" in
  Chroma.similarity_search (Collection := SpecStore.collection far) "cielo" 5 s
  = (Return [d], s)
  /\ quota (RAGChain.prompt repr [d] "cielo") = Raises "quota"
  /\ RAGChain.query_with_sources (vectordb := SpecStore.collection far)
       quota repr "cielo" 5 s
     = (Return {| RAGChain.Sourced.answer := RAGChain.sorry "quota";
                  RAGChain.Sourced.sources := [d];
                  RAGChain.Sourced.source_count := 1 |},
        s).
Proof.
  intros far d s quota repr.
  assert (E : Chroma.similarity_search (Collection := SpecStore.collection far)
                "cielo" 5 s
              = (Return [d], s)) by reflexivity.
  assert (L : quota (RAGChain.prompt repr [d] "cielo") = Raises "quota")
    by reflexivity.
  exact (conj E (conj L
           (@sources_survive_a_failed_answer _ (SpecStore.collection far)
              quota repr "cielo" 5 s s s [d] [d] "quota" E E L))).
Defined.

End BackendFacts.

(** ** The two applications *)

Module AppFacts.
Import DocumentProcessor LoaderFacts ProcessorFacts BackendFacts.

Ltac cases :=
  repeat (match goal with
          | |- context [Chroma.count ?s] =>
              destruct (Chroma.count s) as [[?|?] ?]
          | |- context [Chroma.get_ids ?s] =>
              destruct (Chroma.get_ids s) as [[[|? ?]|?] ?]
          | |- context [Chroma.delete ?ids ?s] =>
              destruct (Chroma.delete ids s) as [[[]|?] ?]
          | |- context [(?n =? 0)%nat] => destruct (n =? 0)%nat
          end; cbv beta iota).

Lemma load_all_step fs p rest documents :
  App.load_all fs (p :: rest) documents
  = if supported p then
      match load_file fs p with
      | Return loaded => App.load_all fs rest (documents ++ loaded)
      | Raises e => Raises e
      end
    else App.load_all fs rest documents.
Proof.
  cbn [App.load_all]. unfold supported, load_file.
  destruct (endswith p ".pdf"); [reflexivity|].
  now destruct (endswith p ".txt").
Qed.

Lemma load_all_spec fs l : forall documents,
  (forall p, In p l -> supported p = true -> loads fs p = true) ->
  App.load_all fs l documents
  = Return (documents ++ flat_map (documents_of fs) (filter (loads fs) l)).
Proof.
  induction l as [|p l IH]; intros documents H.
  - cbn. now rewrite app_nil_r.
  - rewrite load_all_step. cbn [filter].
    destruct (supported p) eqn:Sp.
    + assert (L : loads fs p = true) by (apply H; [now left|assumption]).
      rewrite L. cbn [flat_map]. unfold loads in L. unfold documents_of at 1.
      destruct (load_file fs p); [|discriminate].
      rewrite IH by (intros; apply H; [now right|assumption]).
      now rewrite app_assoc.
    + unfold loads. rewrite (unsupported_fails fs p Sp). cbn [returned].
      apply IH. intros. apply H; [now right|assumption].
Qed.

Lemma load_all_raises fs before p after e :
  (forall q, In q before -> supported q = true -> loads fs q = true) ->
  supported p = true ->
  load_file fs p = Raises e ->
  forall documents,
    App.load_all fs (before ++ p :: after) documents = Raises e.
Proof.
  intros H Sp E.
  induction before as [|q before IH]; intros documents.
  - cbn [app]. now rewrite load_all_step, Sp, E.
  - cbn [app]. rewrite load_all_step.
    destruct (supported q) eqn:Sq.
    + assert (L : loads fs q = true) by (apply H; [now left|assumption]).
      unfold loads in L. destruct (load_file fs q); [|discriminate].
      apply IH. intros. apply H; [now right|assumption].
    + apply IH. intros. apply H; [now right|assumption].
Qed.

(** X16: the loading loop of [app.py] and [load_multiple_files] of the
    refactored application give the same documents whenever every file
    with a supported extension loads; files with another extension are
    skipped by the first and reported as failed by the second.  When a
    supported file raises, the loop of [app.py] lets the exception
    escape. *)
Theorem load_all_agrees_with_load_multiple_files fs :
  (forall file_list,
      (forall p, In p file_list -> supported p = true -> loads fs p = true) ->
      exists documents failed_files,
        load_multiple_files fs file_list = Return (documents, failed_files)
        /\ App.load_all fs file_list [] = Return documents)
  /\ (forall before p after e,
        (forall q, In q before -> supported q = true -> loads fs q = true) ->
        supported p = true ->
        load_file fs p = Raises e ->
        App.load_all fs (before ++ p :: after) [] = Raises e).
Proof.
  split.
  - intros l H. eexists _, _. split; [apply load_multiple_files_spec|].
    now rewrite load_all_spec.
  - intros before p after e H Sp E. now apply load_all_raises.
Qed.

Section AnyBackend.
Context {S : Type} {vectordb : Chroma.Collection S}.

Lemma get_stats_returns (s : S) :
  exists st s', DatabaseManager.get_stats s = (Return st, s').
Proof.
  destruct (get_stats_spec s) as (st & s' & E & _). eauto.
Qed.

Lemma then_stats_returns {A} (f : DatabaseManager.Stats.t -> A) (s : S) :
  exists r s',
    (stats <- DatabaseManager.get_stats ;; ret (f stats)) s = (Return r, s').
Proof.
  destruct (get_stats_returns s) as (st & s' & E). run. rewrite E. eauto.
Qed.

Lemma try_except_returns {A} (m : M S A) handler (s : S) :
  (forall e s1, exists r s', handler e s1 = (Return r, s')) ->
  exists r s', try_except m handler s = (Return r, s').
Proof.
  intros H. unfold try_except. destruct (m s) as [[a|e] s1]; eauto.
Qed.

Variable fs : Loaders.
Variable text_splitter : list Document -> outcome (list Document).
Variable strip : string -> string.
Variable llm : string -> outcome string.
Variable repr : list Document -> string.

(** X17: no handler of the refactored interface raises, whatever the
    loaders, the splitter, the language model and the store do. *)
Theorem handlers_never_raise (s : S) :
  (forall file_list, exists r s',
      AppRefactorizado.handle_file_upload fs text_splitter file_list s
      = (Return r, s'))
  /\ (forall message chat_history, exists r s',
        AppRefactorizado.handle_chat_message strip llm repr
          message chat_history s
        = (Return r, s'))
  /\ (exists r s', AppRefactorizado.handle_clear_database s = (Return r, s'))
  /\ (exists r s', AppRefactorizado.handle_refresh_stats s = (Return r, s')).
Proof.
  repeat split.
  - intros [|p l]; unfold AppRefactorizado.handle_file_upload.
    + apply then_stats_returns.
    + apply try_except_returns. intros. apply then_stats_returns.
  - intros message chat_history.
    unfold AppRefactorizado.handle_chat_message.
    destruct (_ || _); [unfold ret; eauto|].
    apply try_except_returns. intros. unfold ret. eauto.
  - unfold AppRefactorizado.handle_clear_database.
    apply try_except_returns. intros. apply then_stats_returns.
  - apply then_stats_returns.
Qed.

(** X18: when [process_files] reports no success, [handle_file_upload]
    passes its message on and adds nothing: the store is touched by
    [get_stats] only. *)
Theorem failed_processing_adds_nothing file_list r (s : S) :
  process_files fs text_splitter file_list = Return r ->
  Processed.success r = false ->
  file_list <> [] ->
  AppRefactorizado.handle_file_upload fs text_splitter file_list s
  = (stats <- DatabaseManager.get_stats ;;
     ret (Processed.message r, DatabaseManager.Stats.message stats)) s.
Proof.
  intros E F N. destruct file_list as [|p l]; [congruence|].
  unfold AppRefactorizado.handle_file_upload. cbv zeta. run.
  rewrite E, F. cbn [negb].
  destruct (get_stats_returns s) as (st & s' & ->). reflexivity.
Qed.

(** X19: [handle_chat_message] always clears the input box; for a
    blank message it leaves the history and the store as they are, and
    for any other message it appends exactly one pair, the message with
    the string [query] returned for it. *)
Theorem chat_history_grows_by_one message chat_history (s : S) :
  let blank := String.eqb message "" || String.eqb (strip message) "" in
  exists reply s',
    AppRefactorizado.handle_chat_message strip llm repr message chat_history s
    = (Return ("", if blank then chat_history
                   else chat_history ++ [(message, reply)]),
       if blank then s else s')
    /\ RAGChain.query llm repr message AppRefactorizado.TOP_K_DOCUMENTS s
       = (Return reply, s').
Proof.
  intros blank. unfold AppRefactorizado.handle_chat_message. fold blank.
  destruct (FailureFacts.query_returns llm repr message
              AppRefactorizado.TOP_K_DOCUMENTS s) as (reply & E).
  destruct (RAGChain.query llm repr message AppRefactorizado.TOP_K_DOCUMENTS s)
    as [o s'] eqn:Q.
  cbn [fst] in E. subst o. exists reply, s'. split; [|reflexivity].
  destruct blank; [reflexivity|]. run. now rewrite Q.
Qed.

(** X20: clearing the store through [app.py] and through the handler of
    the refactored application leaves the store in the same state,
    whatever the backend does, and when the clearing succeeds both show
    the same message. *)
Theorem both_clear_the_store_alike (s : S) :
  snd (App.clear_knowledge_base s)
  = snd (AppRefactorizado.handle_clear_database s)
  /\ (forall r s1,
        DatabaseManager.clear_all_documents s = (Return r, s1) ->
        DatabaseManager.Cleared.success r = true ->
        exists stats stats',
          fst (App.clear_knowledge_base s)
          = Return (DatabaseManager.Cleared.message r, stats)
          /\ fst (AppRefactorizado.handle_clear_database s)
             = Return (DatabaseManager.Cleared.message r, stats')).
Proof.
  unfold App.clear_knowledge_base, AppRefactorizado.handle_clear_database,
    App.get_knowledge_base_stats, DatabaseManager.clear_all_documents,
    DatabaseManager.get_stats.
  run. split.
  - cases; reflexivity.
  - intros r s1. cases; intros [= <- <-] Hs; try discriminate Hs;
      cbn; eauto.
Qed.

(** X21: in [app.py] the first file with a supported extension that
    fails to load makes [add_to_knowledge_base] raise its exception, and
    the store is not touched; nothing of the files loaded before it is
    added. *)
Theorem unreadable_file_escapes_in_app before p after e (s : S) :
  (forall q, In q before -> supported q = true -> loads fs q = true) ->
  supported p = true ->
  load_file fs p = Raises e ->
  App.add_to_knowledge_base fs text_splitter (before ++ p :: after) s
  = (Raises e, s).
Proof.
  intros H Sp E.
  pose proof (load_all_raises fs before p after H Sp E []) as R.
  destruct (before ++ p :: after) as [|x l] eqn:L;
    [now destruct before|].
  unfold App.add_to_knowledge_base. run. now rewrite R.
Qed.

End AnyBackend.

Lemma failed_processing_adds_nothing_witness :
  let far : string -> string -> Q := fun _ _ => 0%Q in
  let fs := {| PyPDFLoader := fun _ => Raises "no such file";
               TextLoader := fun _ => Raises "no such file" |} in
  let text_splitter := fun docs : list Document => Return docs in
  let r := {| Processed.success := false;
              Processed.splits := [];
              Processed.document_count := 0;
              Processed.split_count := 0;
              Processed.failed_files := ["a.txt"];
              Processed.message :=
                "❌ No se pudieron cargar documentos válidos" |} in
  process_files fs text_splitter ["a.txt"] = Return r
  /\ Processed.success r = false
  /\ ["a.txt"] <> []
  /\ snd (AppRefactorizado.handle_file_upload
            (vectordb := SpecStore.collection far)
            fs text_splitter ["a.txt"] SpecStore.empty)
     = SpecStore.empty.
Proof.
  intros far fs text_splitter r.
  assert (E : process_files fs text_splitter ["a.txt"] = Return r)
    by reflexivity.
  assert (F : Processed.success r = false) by reflexivity.
  assert (N : ["a.txt"] <> []) by discriminate.
  refine (conj E (conj F (conj N _))).
  now rewrite (@failed_processing_adds_nothing _ (SpecStore.collection far)
                 fs text_splitter ["a.txt"] r SpecStore.empty E F N).
Defined.

Lemma unreadable_file_escapes_in_app_witness :
  let far : string -> string -> Q := fun _ _ => 0%Q in
  let d := fun p => {| page_content := p; metadata := [] |} in
  let fs := {| PyPDFLoader := fun _ => Raises "no such file";
               TextLoader := fun p => Return [d p] |} in
  let text_splitter := fun docs : list Document => Return docs in
  (forall q, In q ["a.txt"] -> supported q = true -> loads fs q = true)
  /\ supported "b.pdf" = true
  /\ load_file fs "b.pdf" = Raises "no such file"
  /\ App.add_to_knowledge_base (vectordb := SpecStore.collection far)
       fs text_splitter (["a.txt"] ++ "b.pdf" :: ["c.txt"]) SpecStore.empty
     = (Raises "no such file", SpecStore.empty).
Proof.
  intros far d fs text_splitter.
  assert (H : forall q, In q ["a.txt"] -> supported q = true ->
                        loads fs q = true)
    by (intros q [<-|[]] _; reflexivity).
  assert (Sp : supported "b.pdf" = true) by reflexivity.
  assert (E : load_file fs "b.pdf" = Raises "no such file") by reflexivity.
  exact (conj H (conj Sp (conj E
           (@unreadable_file_escapes_in_app _ (SpecStore.collection far)
              fs text_splitter ["a.txt"] "b.pdf" ["c.txt"] "no such file"
              SpecStore.empty H Sp E)))).
Defined.

End AppFacts.
